(** * Authentication and account recovery routes

    A shallow embedding of the public user routes ([/list], [/login],
    [/recover-step1], [/recover-step2]) with the in-memory rate limiters and
    the recovery-code cache they share, followed by the properties the
    specification states about them.

    Conventions of the embedding:
    - every handler is a function of the request, of the ambient readings
      taken while it runs (clock, random source) and of the shared state;
      it returns the response, the session object as the handler leaves it,
      and the new shared state;
    - a rejected promise or a thrown exception is an [Err] outcome of the
      handler body; the [catch] clause of each handler turns it into a
      response and keeps the state reached so far;
    - request-body fields are optional strings ([None] is a field that is
      not there); a JavaScript string is truthy when it is not empty. *)

From stdpp Require Import gmap strings list fin_maps sorting.
From Stdlib Require Import ZArith Ascii DecimalString.

Local Open Scope string_scope.
Local Open Scope Z_scope.

(** ** JavaScript values used by the routes *)

(** [!!s] for a string. *)
Definition truthy (s : string) : bool :=
  match s with
  | EmptyString => false
  | String _ _ => true
  end.

(** [!!x] for a body field that may be missing. *)
Definition truthy_field (x : option string) : bool :=
  match x with
  | Some s => truthy s
  | None => false
  end.

(** [String(n)] for an integer [n]. *)
Definition String_of_number (n : Z) : string :=
  NilZero.string_of_int (Z.to_int n).

(** A string of exactly four decimal digits. *)
Definition is_digit (a : ascii) : bool :=
  (48 <=? nat_of_ascii a)%nat && (nat_of_ascii a <=? 57)%nat.

Definition four_digits (s : string) : bool :=
  match s with
  | String a (String b (String c (String d EmptyString))) =>
      is_digit a && is_digit b && is_digit c && is_digit d
  | _ => false
  end.

(** [crypto.randomInt(min, max)]: the runtime draws [x] below a multiple of
    [max - min] (draws above it are thrown away and redrawn) and returns
    [x % range + min].  [x] is the draw that was kept. *)
Definition RAND_MAX : Z := 281474976710655.

Definition randLimit (min max : Z) : Z :=
  RAND_MAX - RAND_MAX mod (max - min).

Definition randomInt (min max : Z) (x : Z) : Z :=
  x mod (max - min) + min.

(** ** Outcomes of asynchronous steps *)

(** What [consume] rejects with. *)
Record RateLimiterRes := {
  msBeforeNext : Z;
  remainingPoints : nat;
  consumedPoints : nat;
  isFirstInDuration : bool;
}.

Inductive Error :=
| RateLimited (res : RateLimiterRes)
| OtherError.

Inductive Outcome (A : Type) :=
| Ok (a : A)
| Err (e : Error).
Arguments Ok {A} a.
Arguments Err {A} e.

(** ** rate-limiter-flexible: [RateLimiterMemory]

    The store keeps, per key, the points consumed and the instant the window
    ends.  The library also arms a timer that deletes the record when the
    window ends; a record whose window has ended is never read again
    ([incrby] replaces it), so the timer is left out. *)
Module RateLimiterMemory.

Record Options := { points : nat; duration : Z }.

Record Record_ := { value : nat; expiresAt : option Z }.

Definition set (key : string) (v : nat) (durationSec : Z) (now : Z)
    (st : gmap string Record_) : RateLimiterRes * gmap string Record_ :=
  let durationMs := durationSec * 1000 in
  let r := {| value := v;
              expiresAt := if 0 <? durationMs then Some (now + durationMs) else None |} in
  ({| msBeforeNext := if durationMs =? 0 then -1 else durationMs;
      remainingPoints := 0;
      consumedPoints := v;
      isFirstInDuration := true |},
   <[key := r]> st).

(** A stored record counts at [t]: [!expiresAt || msBeforeExpires > 0]. *)
Definition in_force (t : Z) (r : Record_) : bool :=
  match expiresAt r with
  | Some e => 0 <? e - t
  | None => true
  end.

Definition incrby (key : string) (v : nat) (durationSec : Z) (now : Z)
    (st : gmap string Record_) : RateLimiterRes * gmap string Record_ :=
  match st !! key with
  | Some r =>
      let msBeforeExpires :=
        match expiresAt r with
        | Some e => e - now
        | None => -1
        end in
      if in_force now r
      then
        let r' := {| value := (value r + v)%nat; expiresAt := expiresAt r |} in
        ({| msBeforeNext := msBeforeExpires;
            remainingPoints := 0;
            consumedPoints := value r';
            isFirstInDuration := false |},
         <[key := r']> st)
      else set key v durationSec now st
  | None => set key v durationSec now st
  end.

(** [consume(key)] with the default of one point; no block duration and
    no even spreading are configured by the routes. *)
Definition consume (opts : Options) (key : string) (now : Z)
    (st : gmap string Record_) : Outcome RateLimiterRes * gmap string Record_ :=
  let '(res, st') := incrby key 1 (duration opts) now st in
  let res' := {| msBeforeNext := msBeforeNext res;
                 remainingPoints := (points opts - consumedPoints res)%nat;
                 consumedPoints := consumedPoints res;
                 isFirstInDuration := isFirstInDuration res |} in
  if (points opts <? consumedPoints res)%nat
  then (Err (RateLimited res'), st')
  else (Ok res', st').

(** [delete(key)]: resolves to whether a record was there. *)
Definition delete (key : string) (st : gmap string Record_)
    : bool * gmap string Record_ :=
  (bool_decide (is_Some (st !! key)), base.delete key st).

(** The points already charged to [key] in the window in force at [t]. *)
Definition charged (key : string) (t : Z) (st : gmap string Record_) : nat :=
  match st !! key with
  | Some r => if in_force t r then value r else 0%nat
  | None => 0%nat
  end.

End RateLimiterMemory.

(** ** The recovery-code cache *)
Module Cache.

Record Entry := { value : string; expiry : Z }.

(** Modelled from the spec: the [Cache] class of [util.js] is not among
    the sources.  [set] stores the code with an expiry of now plus the
    time to live and overwrites any entry of the handle; [get] returns the
    code when there is one that has not expired, otherwise nothing, and
    drops an expired entry it meets; [remove] deletes the entry. *)
Definition set (ttl : Z) (key : string) (v : string) (now : Z)
    (c : gmap string Entry) : gmap string Entry :=
  <[key := {| value := v; expiry := now + ttl |}]> c.

(** Modelled from the spec: [get] of the same class; a code is there
    until its expiry and gone at or after it. *)
Definition get (key : string) (now : Z) (c : gmap string Entry)
    : option string * gmap string Entry :=
  match c !! key with
  | Some e =>
      if now <? expiry e then (Some (value e), c)
      else (None, base.delete key c)
  | None => (None, c)
  end.

(** Modelled from the spec: [remove] of the same class. *)
Definition remove (key : string) (c : gmap string Entry) : gmap string Entry :=
  base.delete key c.

End Cache.

(** ** Data model *)

(** A user record as the store holds it.  [created] may be missing (the
    listing reads it with [?? 0]). *)
Record User := {
  handle : string;
  name : string;
  password : string;
  salt : string;
  enabled : bool;
  created : option Z;
  uid : string;
}.

Record UserViewModel := {
  vm_handle : string;
  vm_name : string;
  vm_created : option Z;
  vm_avatar : string;
  vm_password : bool;
}.

(** [request.session]: only its [handle] property is touched here. *)
Record Session := { session_handle : option string }.

Record Request := {
  body_handle : option string;
  body_password : option string;
  body_code : option string;
  body_newPassword : option string;
  session : option Session;
  headers : list (string * string);
  remoteAddress : string;
}.

(** What a handler reads from outside while it runs: [Date.now()], the draw
    behind [crypto.randomInt], and what [getPasswordSalt()] hands out. *)
Record Ambient := {
  now : Z;
  intDraw : Z;
  saltDraw : string;
}.

Inductive Payload :=
| StatusText
| JsonError (error : string)
| JsonLogin (h : string) (u : string)
| JsonList (l : list UserViewModel).

Record Response := { status : Z; payload : Payload }.

Definition sendStatus (code : Z) : Response :=
  {| status := code; payload := StatusText |}.

Definition json (code : Z) (p : Payload) : Response :=
  {| status := code; payload := p |}.

(** The shared, module-level state of the router. *)
Record State := {
  storage : gmap string User;
  loginLimiter : gmap string RateLimiterMemory.Record_;
  recoverLimiter : gmap string RateLimiterMemory.Record_;
  MFA_CACHE : gmap string Cache.Entry;
}.

Definition with_storage (m : gmap string User) (s : State) : State :=
  {| storage := m; loginLimiter := loginLimiter s;
     recoverLimiter := recoverLimiter s; MFA_CACHE := MFA_CACHE s |}.

Definition with_loginLimiter (m : gmap string RateLimiterMemory.Record_)
    (s : State) : State :=
  {| storage := storage s; loginLimiter := m;
     recoverLimiter := recoverLimiter s; MFA_CACHE := MFA_CACHE s |}.

Definition with_recoverLimiter (m : gmap string RateLimiterMemory.Record_)
    (s : State) : State :=
  {| storage := storage s; loginLimiter := loginLimiter s;
     recoverLimiter := m; MFA_CACHE := MFA_CACHE s |}.

Definition with_MFA_CACHE (m : gmap string Cache.Entry) (s : State) : State :=
  {| storage := storage s; loginLimiter := loginLimiter s;
     recoverLimiter := recoverLimiter s; MFA_CACHE := m |}.

(** ** The handler monad: shared state and exceptions *)

Definition M (A : Type) : Type := State → Outcome A * State.

Definition ret {A} (a : A) : M A := λ s, (Ok a, s).

Definition throw {A} (e : Error) : M A := λ s, (Err e, s).

Definition bind {A B} (m : M A) (k : A → M B) : M B :=
  λ s, match m s with
       | (Ok a, s') => k a s'
       | (Err e, s') => (Err e, s')
       end.

Notation "'let*' x ':=' m 'in' k" := (bind m (λ x, k))
  (at level 10, x pattern, m at level 100, k at level 200).
Notation "m ';;' k" := (bind m (λ _, k))
  (at level 100, k at level 200, right associativity).

(** The interface the routes import from [users.js], [util.js] and
    [express-common.js], and the two configuration values read at load
    time.  None of these is among the sources.  [getPasswordHash] is
    partial: [None] is a call that throws. *)
Class Imports := {
  KEY_PREFIX : string;
  toKey : string → string;
  getPasswordHash : option string → string → option string;
  getUserAvatar : string → string;
  getRealIpFromHeader : Request → string;
  getIpFromRequest : Request → string;
  DISCREET_LOGIN : bool;
  PREFER_REAL_IP_HEADER : bool;
}.

Section Routes.

Context `{Imports}.

Definition getIpAddress (request : Request) : string :=
  if PREFER_REAL_IP_HEADER then getRealIpFromHeader request
  else getIpFromRequest request.

(** [new Cache(5 * 60 * 1000)] *)
Definition MFA_CACHE_ttl : Z := 5 * 60 * 1000.

Definition loginLimiter_options : RateLimiterMemory.Options :=
  {| RateLimiterMemory.points := 5; RateLimiterMemory.duration := 60 |}.

Definition recoverLimiter_options : RateLimiterMemory.Options :=
  {| RateLimiterMemory.points := 5; RateLimiterMemory.duration := 300 |}.

(** *** Awaited operations on the shared state *)

Definition loginLimiter_consume (ip : string) (t : Z) : M RateLimiterRes :=
  λ s, let '(o, l) := RateLimiterMemory.consume loginLimiter_options ip t
                        (loginLimiter s) in
       (o, with_loginLimiter l s).

Definition loginLimiter_delete (ip : string) : M bool :=
  λ s, let '(b, l) := RateLimiterMemory.delete ip (loginLimiter s) in
       (Ok b, with_loginLimiter l s).

Definition recoverLimiter_consume (ip : string) (t : Z) : M RateLimiterRes :=
  λ s, let '(o, l) := RateLimiterMemory.consume recoverLimiter_options ip t
                        (recoverLimiter s) in
       (o, with_recoverLimiter l s).

Definition recoverLimiter_delete (ip : string) : M bool :=
  λ s, let '(b, l) := RateLimiterMemory.delete ip (recoverLimiter s) in
       (Ok b, with_recoverLimiter l s).

Definition storage_getItem (key : string) : M (option User) :=
  λ s, (Ok (storage s !! key), s).

Definition storage_setItem (key : string) (u : User) : M unit :=
  λ s, (Ok tt, with_storage (<[key := u]> (storage s)) s).

(** [storage.values(filter)]: the values of the data the filter keeps. *)
Definition storage_values (keep : string * User → bool) : M (list User) :=
  λ s, (Ok (snd <$> List.filter keep (map_to_list (storage s))), s).

Definition MFA_CACHE_get (key : string) (t : Z) : M (option string) :=
  λ s, let '(v, c) := Cache.get key t (MFA_CACHE s) in
       (Ok v, with_MFA_CACHE c s).

Definition MFA_CACHE_set (key : string) (v : string) (t : Z) : M unit :=
  λ s, (Ok tt, with_MFA_CACHE (Cache.set MFA_CACHE_ttl key v t (MFA_CACHE s)) s).

Definition MFA_CACHE_remove (key : string) : M unit :=
  λ s, (Ok tt, with_MFA_CACHE (Cache.remove key (MFA_CACHE s)) s).

(** A call of [getPasswordHash] inside a [try] block. *)
Definition call_getPasswordHash (p : option string) (slt : string) : M string :=
  match getPasswordHash p slt with
  | Some h => ret h
  | None => throw OtherError
  end.

(** *** POST /list *)

Definition toViewModel (user : User) : UserViewModel :=
  {| vm_handle := handle user;
     vm_name := name user;
     vm_created := created user;
     vm_avatar := getUserAvatar (handle user);
     vm_password := truthy (password user) |}.

(** [x.created ?? 0] *)
Definition created_or_0 (x : UserViewModel) : Z := default 0 (vm_created x).

(** The order [viewModels.sort((x, y) => (x.created ?? 0) - (y.created ?? 0))]
    sorts by. *)
Definition by_created (x y : UserViewModel) : Prop :=
  created_or_0 x ≤ created_or_0 y.

#[global] Instance by_created_dec : RelDecision by_created.
Proof. intros x y. unfold by_created. apply _. Defined.

#[global] Instance by_created_total : Total by_created.
Proof. intros x y. unfold by_created. lia. Qed.

Definition list_try : M Response :=
  if DISCREET_LOGIN then ret (sendStatus 204)
  else
    let* users := storage_values (λ x, String.prefix KEY_PREFIX (fst x)) in
    let viewModels := toViewModel <$> List.filter enabled users in
    ret (json 200 (JsonList (merge_sort by_created viewModels))).

Definition list_route (s : State) : Response * State :=
  match list_try s with
  | (Ok r, s') => (r, s')
  | (Err _, s') => (sendStatus 500, s')
  end.

(** *** POST /login *)

(** [user.password && user.password !== getPasswordHash(request.body.password, user.salt)] *)
Definition password_step (user : User) (request : Request) : M bool :=
  if truthy (password user)
  then let* h' := call_getPasswordHash (body_password request) (salt user) in
       ret (negb (String.eqb (password user) h'))
  else ret false.

Definition login_try (request : Request) (w : Ambient)
    : M (Response * option Session) :=
  match body_handle request with
  | None => ret (json 400 (JsonError "Missing required fields"), session request)
  | Some h =>
    if negb (truthy h)
    then ret (json 400 (JsonError "Missing required fields"), session request)
    else
      let ip := getIpAddress request in
      loginLimiter_consume ip (now w) ;;
      let* user := storage_getItem (toKey h) in
      match user with
      | None => ret (json 403 (JsonError "Incorrect credentials"), session request)
      | Some user =>
        if negb (enabled user)
        then ret (json 403 (JsonError "User is disabled"), session request)
        else
          let* mismatch := password_step user request in
          if (mismatch : bool)
          then ret (json 403 (JsonError "Incorrect credentials"), session request)
          else
            match session request with
            | None => ret (sendStatus 500, None)
            | Some _ =>
                loginLimiter_delete ip ;;
                ret (json 200 (JsonLogin (handle user) (uid user)),
                     Some {| session_handle := Some (handle user) |})
            end
      end
  end.

Definition login (request : Request) (w : Ambient) (s : State)
    : (Response * option Session) * State :=
  match login_try request w s with
  | (Ok r, s') => (r, s')
  | (Err (RateLimited _), s') =>
      ((json 429 (JsonError "Too many attempts. Try again later or recover your password."),
        session request), s')
  | (Err OtherError, s') => ((sendStatus 500, session request), s')
  end.

(** *** POST /recover-step1 *)

Definition recover_step1_try (request : Request) (w : Ambient) : M Response :=
  match body_handle request with
  | None => ret (json 400 (JsonError "Missing required fields"))
  | Some h =>
    if negb (truthy h)
    then ret (json 400 (JsonError "Missing required fields"))
    else
      let ip := getIpAddress request in
      recoverLimiter_consume ip (now w) ;;
      let* user := storage_getItem (toKey h) in
      match user with
      | None => ret (json 404 (JsonError "User not found"))
      | Some user =>
        if negb (enabled user)
        then ret (json 403 (JsonError "User is disabled"))
        else
          let mfaCode := String_of_number (randomInt 1000 9999 (intDraw w)) in
          MFA_CACHE_set (handle user) mfaCode (now w) ;;
          ret (sendStatus 204)
      end
  end.

Definition recover_step1 (request : Request) (w : Ambient) (s : State)
    : Response * State :=
  match recover_step1_try request w s with
  | (Ok r, s') => (r, s')
  | (Err (RateLimited _), s') =>
      (json 429 (JsonError "Too many attempts. Try again later or contact your admin."), s')
  | (Err OtherError, s') => (sendStatus 500, s')
  end.

(** *** POST /recover-step2 *)

Definition set_password (user : User) (p slt : string) : User :=
  {| handle := handle user; name := name user; password := p; salt := slt;
     enabled := enabled user; created := created user; uid := uid user |}.

Definition recover_step2_try (request : Request) (w : Ambient) : M Response :=
  match body_handle request, body_code request with
  | Some h, Some code =>
    if negb (truthy h) || negb (truthy code)
    then ret (json 400 (JsonError "Missing required fields"))
    else
      let* user := storage_getItem (toKey h) in
      let ip := getIpAddress request in
      match user with
      | None => ret (json 404 (JsonError "User not found"))
      | Some user =>
        if negb (enabled user)
        then ret (json 403 (JsonError "User is disabled"))
        else
          let* mfaCode := MFA_CACHE_get (handle user) (now w) in
          if negb (bool_decide (mfaCode = Some code))
          then
            recoverLimiter_consume ip (now w) ;;
            ret (json 403 (JsonError "Incorrect code"))
          else
            (if truthy_field (body_newPassword request)
             then
               let slt := saltDraw w in
               let* p := call_getPasswordHash (body_newPassword request) slt in
               storage_setItem (toKey (handle user)) (set_password user p slt)
             else
               storage_setItem (toKey (handle user)) (set_password user "" "")) ;;
            recoverLimiter_delete ip ;;
            MFA_CACHE_remove (handle user) ;;
            ret (sendStatus 204)
      end
  | _, _ => ret (json 400 (JsonError "Missing required fields"))
  end.

Definition recover_step2 (request : Request) (w : Ambient) (s : State)
    : Response * State :=
  match recover_step2_try request w s with
  | (Ok r, s') => (r, s')
  | (Err (RateLimited _), s') =>
      (json 429 (JsonError "Too many attempts. Try again later or contact your admin."), s')
  | (Err OtherError, s') => (sendStatus 500, s')
  end.

End Routes.

(** ** Vocabulary of the statements *)

Section Vocabulary.

Context `{Imports}.

(** A required body field is there: it holds the non-empty string [h]. *)
Definition present (x : option string) (h : string) : Prop :=
  x = Some h ∧ truthy h = true.

(** The password check of [/login] lets the request through: the record has
    no password, or the hash of the supplied one is the stored hash. *)
Definition password_accepted (user : User) (request : Request) : Prop :=
  truthy (password user) = false
  ∨ getPasswordHash (body_password request) (salt user) = Some (password user).

(** The record has a password and the supplied one hashes to something else. *)
Definition wrong_password (user : User) (request : Request) : Prop :=
  truthy (password user) = true
  ∧ ∃ h', getPasswordHash (body_password request) (salt user) = Some h'
          ∧ h' ≠ password user.

(** A login attempt for a handle of an enabled record, with a wrong password. *)
Definition wrong_password_attempt (s : State) (request : Request) : Prop :=
  ∃ h user, present (body_handle request) h
            ∧ storage s !! toKey h = Some user
            ∧ enabled user = true
            ∧ wrong_password user request.

Definition Forbidden_incorrect_credentials : Response :=
  json 403 (JsonError "Incorrect credentials").

Definition TooManyRequests_login : Response :=
  json 429 (JsonError "Too many attempts. Try again later or recover your password.").

Definition TooManyRequests_recover : Response :=
  json 429 (JsonError "Too many attempts. Try again later or contact your admin.").

(** The answer to a wrong-password attempt that brings the charge of its
    origin to [n] points. *)
Definition verdict (n : nat) : Response :=
  if (5 <? n)%nat then TooManyRequests_login else Forbidden_incorrect_credentials.

(** Login requests handled one after the other; the responses in order. *)
Fixpoint login_all (reqs : list (Request * Ambient)) (s : State)
    : list Response * State :=
  match reqs with
  | [] => ([], s)
  | (request, w) :: rest =>
      let '((response, _), s') := login request w s in
      let '(responses, s'') := login_all rest s' in
      (response :: responses, s'')
  end.

(** The limiter window of [origin] does not end in the middle of the
    attempts: it starts with the first one (no record in force at [t1]) or
    it is still in force at every one of them. *)
Definition window_holds (origin : string) (t1 : Z)
    (reqs : list (Request * Ambient)) (s : State) : Prop :=
  match loginLimiter s !! origin with
  | None => True
  | Some r =>
      RateLimiterMemory.in_force t1 r = false
      ∨ Forall (λ rw, RateLimiterMemory.in_force (now rw.2) r = true) reqs
  end.

(** No window of [origin] is in force at [t1]. *)
Definition window_fresh (origin : string) (t1 : Z) (s : State) : Prop :=
  match loginLimiter s !! origin with
  | None => True
  | Some r => RateLimiterMemory.in_force t1 r = false
  end.

(** The record [/recover-step2] writes on a matching code. *)
Definition recovered (user : User) (request : Request) (w : Ambient) (p : string)
    : User :=
  if truthy_field (body_newPassword request)
  then set_password user p (saltDraw w)
  else set_password user "" "".

End Vocabulary.

(** ** A concrete environment, used to run the routes on examples *)

(** A stand-in for [getPasswordHash] of [users.js], which calls a method of
    the password before it hashes: without a password the call throws. *)
Definition demo_hash (p : option string) (slt : string) : option string :=
  match p with
  | Some p => Some ("h(" +:+ p +:+ "," +:+ slt +:+ ")")
  | None => None
  end.

Definition demo_imports : Imports :=
  {| KEY_PREFIX := "user:";
     toKey := λ h, "user:" +:+ h;
     getPasswordHash := demo_hash;
     getUserAvatar := λ h, "/avatars/" +:+ h;
     getRealIpFromHeader := λ r, default (remoteAddress r) (snd <$> head (headers r));
     getIpFromRequest := remoteAddress;
     DISCREET_LOGIN := false;
     PREFER_REAL_IP_HEADER := false |}.

Definition alice : User :=
  {| handle := "alice"; name := "Alice"; password := "h(secret,s1)"; salt := "s1";
     enabled := true; created := Some 20; uid := "u-1" |}.

Definition bob : User :=
  {| handle := "bob"; name := "Bob"; password := ""; salt := "";
     enabled := true; created := Some 10; uid := "u-2" |}.

Definition carol : User :=
  {| handle := "carol"; name := "Carol"; password := ""; salt := "";
     enabled := false; created := None; uid := "u-3" |}.

Definition demo_state : State :=
  {| storage := <["user:alice" := alice]> (<["user:bob" := bob]> (<["user:carol" := carol]> ∅));
     loginLimiter := ∅;
     recoverLimiter := ∅;
     MFA_CACHE := ∅ |}.

Definition demo_request (h p : option string) : Request :=
  {| body_handle := h; body_password := p; body_code := None;
     body_newPassword := None; session := Some {| session_handle := None |};
     headers := []; remoteAddress := "10.0.0.1" |}.

Definition demo_recover (h code newp : option string) : Request :=
  {| body_handle := h; body_password := None; body_code := code;
     body_newPassword := newp; session := None;
     headers := []; remoteAddress := "10.0.0.1" |}.

Definition at_time (t : Z) : Ambient :=
  {| now := t; intDraw := 123456789; saltDraw := "s2" |}.

Definition demo_no_session (h p : option string) : Request :=
  {| body_handle := h; body_password := p; body_code := None;
     body_newPassword := None; session := None;
     headers := []; remoteAddress := "10.0.0.1" |}.

(** A login attempt for alice with a wrong password, at time [t]. *)
Definition wrong_attempt (t : Z) : Request * Ambient :=
  (demo_request (Some "alice") (Some "guess"), at_time t).

(** The state after one failed login at time 0. *)
Definition demo_after_failure : State :=
  (@login_all demo_imports [wrong_attempt 0] demo_state).2.

(** The state after alice asked for a recovery code at time 0. *)
Definition demo_recovering : State :=
  (@recover_step1 demo_imports (demo_recover (Some "alice") None None)
     (at_time 0) demo_state).2.

(** What the limiter holds for an origin after its first point at time 0. *)
Definition first_point (durationMs : Z) : gmap string RateLimiterMemory.Record_ :=
  {[ "10.0.0.1" := {| RateLimiterMemory.value := 1;
                      RateLimiterMemory.expiresAt := Some durationMs |} ]}.

Definition first_res (durationMs : Z) : RateLimiterRes :=
  {| msBeforeNext := durationMs; remainingPoints := 4; consumedPoints := 1;
     isFirstInDuration := true |}.

(** ** Vocabulary of the further statements *)

(** A login request with a handle whose password [/login] does not accept:
    the handle has no record or a disabled one, or the record has a
    password and the hash of the password sent is not the stored hash or
    cannot be computed. *)
Definition password_rejected `{Imports} (s : State) (request : Request) : Prop :=
  ∃ h, present (body_handle request) h
       ∧ ∀ user, storage s !! toKey h = Some user →
                 enabled user = true →
                 ¬ password_accepted user request.

(** The cache holds for [k] the code [v], not yet expired at [t]. *)
Definition live_code (c : gmap string Cache.Entry) (k : string) (t : Z)
    (v : string) : Prop :=
  ∃ e, c !! k = Some e ∧ Cache.value e = v ∧ t < Cache.expiry e.

(** ** The client script [public/scripts/user.js]

    The functions of the script that decide what is sent to the server.
    What a popup or a form yields is an argument; the outcome is the
    request the function sends, or the error it shows instead.  What the
    function does with the server's response is not modelled. *)
Module UserScript.

(** The logged-in user as [/api/users/me] returned it; [handle] may be
    missing. *)
Record CurrentUser := { cu_handle : option string; cu_admin : bool }.

(** [currentUser?.handle || 'default-user'] *)
Definition getCurrentUserHandle (currentUser : option CurrentUser) : string :=
  match currentUser with
  | Some u =>
      match cu_handle u with
      | Some h => if truthy h then h else "default-user"
      | None => "default-user"
      end
  | None => "default-user"
  end.

(** [formData.get(name)]: the first value of that name, if any. *)
Fixpoint formData_get (name : string) (formData : list (string * string))
    : option string :=
  match formData with
  | [] => None
  | (k, v) :: rest => if String.eqb k name then Some v else formData_get name rest
  end.

(** [errors.join(', ')] *)
Fixpoint join (sep : string) (l : list string) : string :=
  match l with
  | [] => ""
  | [x] => x
  | x :: rest => x +:+ sep +:+ join sep rest
  end.

(** The key a form field is sent under: [key.startsWith('_')] fields lose
    the underscore ([key.substring(1)]). *)
Definition body_key (key : string) : string :=
  match key with
  | String "_" rest => rest
  | _ => key
  end.

(** The callback of [formData.forEach] in [createUser].  [body] is a plain
    object: [body[key] = value] under the key '__proto__' goes to the
    prototype setter and adds no property, so nothing is sent under that
    key; under every other key it sets the property. *)
Definition add_field (body : gmap string string) (entry : string * string)
    : gmap string string :=
  if String.eqb entry.1 "confirm" then body
  else if String.eqb (body_key entry.1) "__proto__" then body
  else <[body_key entry.1 := entry.2]> body.

Definition createUser_body (formData : list (string * string))
    : gmap string string :=
  fold_left add_field formData ∅.

(** A form entry ends up under the key [k] of the body. *)
Definition sent_as (k : string) (entry : string * string) : bool :=
  negb (String.eqb entry.1 "confirm")
  && negb (String.eqb (body_key entry.1) "__proto__")
  && String.eqb (body_key entry.1) k.

Definition createUser_errors (formData : list (string * string)) : list string :=
  ((if negb (truthy_field (formData_get "handle" formData))
    then ["Handle is required"] else [])
   ++ (if negb (bool_decide (formData_get "password" formData
                             = formData_get "confirm" formData))
       then ["Passwords do not match"] else []))%list.

Inductive CreateUserAction :=
| ToastError (message title : string)
| PostCreate (body : gmap string string).

(** [createUser(form, callback)] up to its request. *)
Definition createUser (formData : list (string * string)) : CreateUserAction :=
  let errors := createUser_errors formData in
  if (0 <? length errors)%nat
  then ToastError (join ", " errors) "Failed to create user"
  else PostCreate (createUser_body formData).

(** What [callGenericPopup] resolves to for a confirmation popup. *)
Inductive PopupResult := AFFIRMATIVE | NEGATIVE | CANCELLED.

Inductive DeleteUserAction :=
| NotSent (toast : option string)
| PostDelete (handle : string) (purge : bool).

(** [deleteUser(handle, callback)] up to its request; [result], [purge] and
    [confirmHandle] are what the popup yields.  Reading the handle of a
    missing current user throws, which the [catch] swallows. *)
Definition deleteUser (currentUser : option CurrentUser) (handle : string)
    (result : PopupResult) (purge : bool) (confirmHandle : string)
    : DeleteUserAction :=
  match currentUser with
  | None => NotSent None
  | Some u =>
      if bool_decide (cu_handle u = Some handle)
      then NotSent (Some "Cannot delete yourself")
      else
        match result with
        | AFFIRMATIVE =>
            if negb (String.eqb handle confirmHandle)
            then NotSent (Some "Handles do not match")
            else PostDelete handle purge
        | _ => NotSent None
        end
  end.

(** [s.split(sep)] for a separator of one character. *)
Fixpoint split (sep : ascii) (s : string) : list string :=
  match s with
  | EmptyString => [EmptyString]
  | String c rest =>
      if Ascii.eqb c sep then EmptyString :: split sep rest
      else match split sep rest with
           | p :: ps => String c p :: ps
           | [] => [String c EmptyString]
           end
  end.

(** [s.replaceAll(c, '')] for a pattern of one character. *)
Fixpoint remove_all (c : ascii) (s : string) : string :=
  match s with
  | EmptyString => EmptyString
  | String a rest =>
      if Ascii.eqb a c then remove_all c rest else String a (remove_all c rest)
  end.

(** [c] occurs in [s]. *)
Fixpoint occurs (c : ascii) (s : string) : bool :=
  match s with
  | EmptyString => false
  | String a rest => Ascii.eqb a c || occurs c rest
  end.

Definition quote : ascii := "034"%char.

(** The file name [backupUserData] gives the download:
    [header.split(';')[1].split('=')[1]] with every double quote removed
    ([replaceAll]), where [header] is the Content-Disposition of the
    response.  [None] is a TypeError on a
    missing header or part, after which nothing is downloaded. *)
Definition backup_filename (header : option string) : option string :=
  match header with
  | None => None
  | Some h =>
      match split ";" h !! 1%nat with
      | None => None
      | Some part =>
          match split "=" part !! 1%nat with
          | None => None
          | Some v => Some (remove_all quote v)
          end
      end
  end.

End UserScript.

(** ** Further concrete inputs *)

(** The origin 10.0.0.1 has used its five login points in a window that
    ends at 60 s. *)
Definition demo_locked : State :=
  with_loginLimiter
    {[ "10.0.0.1" := {| RateLimiterMemory.value := 5;
                        RateLimiterMemory.expiresAt := Some 60000 |} ]}
    demo_state.

Definition demo_form : list (string * string) :=
  [("_name", "Dana"); ("handle", "dana"); ("password", "pw"); ("confirm", "pw")].

(** A form with a field that would be sent under '__proto__'. *)
Definition demo_form_proto : list (string * string) :=
  [("handle", "dana"); ("___proto__", "evil"); ("_confirm", "kept")].

(** Login requests from 10.0.0.1 that [/login] cannot accept: a wrong
    password for alice, an unknown handle, a disabled record, and alice
    without a password. *)
Definition rejected_attempts : list (Request * Ambient) :=
  [(demo_request (Some "alice") (Some "guess"), at_time 0);
   (demo_request (Some "zed") (Some "guess"), at_time 1000);
   (demo_request (Some "carol") (Some "guess"), at_time 2000);
   (demo_request (Some "alice") None, at_time 3000);
   (demo_request (Some "alice") (Some ""), at_time 4000);
   (demo_request (Some "alice") (Some "secret!"), at_time 5000)].

Definition demo_header : string :=
  "attachment; filename=" +:+ String UserScript.quote
    ("dana.zip" +:+ String UserScript.quote EmptyString).

Definition demo_admin : UserScript.CurrentUser :=
  {| UserScript.cu_handle := Some "admin"; UserScript.cu_admin := true |}.

(** ** Properties of the rate limiter *)

Module RateLimiterFacts.
Import RateLimiterMemory.

Lemma incrby_lookup key d t st :
  ∃ r, (incrby key 1 d t st).2 !! key = Some r
       ∧ value r = S (charged key t st)
       ∧ consumedPoints (incrby key 1 d t st).1 = value r.
Proof.
  unfold incrby, charged, set.
  destruct (st !! key) as [r|] eqn:E; simpl.
  - destruct (in_force t r) eqn:El; simpl.
    + eexists. rewrite lookup_insert_eq. split; [done|]. simpl. split; lia.
    + eexists. rewrite lookup_insert_eq. by simpl.
  - eexists. rewrite lookup_insert_eq. by simpl.
Qed.

Lemma incrby_other key key' v d t st :
  key ≠ key' → (incrby key v d t st).2 !! key' = st !! key'.
Proof.
  intros Hne. unfold incrby, set.
  destruct (st !! key) as [r|]; simpl;
    [destruct (in_force t r); simpl|]; by rewrite lookup_insert_ne.
Qed.

Lemma consume_store opts key t st :
  (consume opts key t st).2 = (incrby key 1 (duration opts) t st).2.
Proof.
  unfold consume. destruct (incrby _ _ _ _ _) as [res st'].
  by destruct (points opts <? consumedPoints res)%nat.
Qed.

(** [consume] resolves while the charge stays within the budget and rejects
    with a [RateLimiterRes] once it goes beyond it. *)
Lemma consume_outcome opts key t st :
  match (consume opts key t st).1 with
  | Ok _ => (S (charged key t st) ≤ points opts)%nat
  | Err (RateLimited _) => (points opts < S (charged key t st))%nat
  | Err OtherError => False
  end.
Proof.
  destruct (incrby_lookup key (duration opts) t st) as (r & _ & Hv & Hc).
  unfold consume. destruct (incrby _ _ _ _ _) as [res st']. simpl in *.
  destruct (points opts <? consumedPoints res)%nat eqn:E; simpl.
  - apply Nat.ltb_lt in E. lia.
  - apply Nat.ltb_ge in E. lia.
Qed.

Lemma consume_lookup opts key t st :
  ∃ r, (consume opts key t st).2 !! key = Some r
       ∧ value r = S (charged key t st).
Proof.
  rewrite consume_store.
  destruct (incrby_lookup key (duration opts) t st) as (r & ? & ? & _); eauto.
Qed.

Lemma consume_other opts key key' t st :
  key ≠ key' → (consume opts key t st).2 !! key' = st !! key'.
Proof. intros. rewrite consume_store. by apply incrby_other. Qed.

Lemma incrby_in_force key v d t st r :
  st !! key = Some r →
  in_force t r = true →
  (incrby key v d t st).2
  = <[key := {| value := (value r + v)%nat; expiresAt := expiresAt r |}]> st.
Proof. intros Hr Hf. unfold incrby. by rewrite Hr, Hf. Qed.

Lemma incrby_fresh key v d t st :
  match st !! key with
  | None => True
  | Some r => in_force t r = false
  end →
  (incrby key v d t st).2
  = <[key := {| value := v;
                expiresAt := if 0 <? d * 1000 then Some (t + d * 1000) else None |}]> st.
Proof.
  unfold incrby. destruct (st !! key) as [r|]; [intros ->|]; done.
Qed.

Lemma charged_in_force key t st r :
  st !! key = Some r → in_force t r = true → charged key t st = value r.
Proof. intros Hr Hf. unfold charged. by rewrite Hr, Hf. Qed.

Lemma charged_fresh key t st :
  match st !! key with
  | None => True
  | Some r => in_force t r = false
  end →
  charged key t st = 0%nat.
Proof.
  unfold charged. destruct (st !! key) as [r|]; [intros ->|]; done.
Qed.

End RateLimiterFacts.

(** ** Login *)

Section LoginFacts.

Context `{Imports}.

Ltac unfold_login :=
  unfold login, login_try, bind, ret, throw, loginLimiter_consume,
    loginLimiter_delete, storage_getItem, call_getPasswordHash,
    RateLimiterMemory.delete.

Lemma password_step_accepted user request s :
  password_accepted user request → password_step user request s = (Ok false, s).
Proof.
  unfold password_step, call_getPasswordHash, bind, ret.
  intros [-> | Hh]; [done|].
  destruct (truthy (password user)); [|done].
  by rewrite Hh, String.eqb_refl.
Qed.

Lemma password_step_wrong user request s :
  wrong_password user request → password_step user request s = (Ok true, s).
Proof.
  unfold password_step, call_getPasswordHash, bind, ret.
  intros [-> (h' & -> & Hne)].
  destruct (String.eqb_spec (password user) h'); [congruence|done].
Qed.

(** What [/login] does once the handle is there and the limiter let the
    request through. *)
Lemma login_consumed request w s h res l :
  present (body_handle request) h →
  RateLimiterMemory.consume loginLimiter_options (getIpAddress request) (now w)
    (loginLimiter s) = (Ok res, l) →
  login request w s =
    let s1 := with_loginLimiter l s in
    match storage s !! toKey h with
    | None => ((Forbidden_incorrect_credentials, session request), s1)
    | Some user =>
        if negb (enabled user)
        then ((json 403 (JsonError "User is disabled"), session request), s1)
        else
          match password_step user request s1 with
          | (Ok true, _) => ((Forbidden_incorrect_credentials, session request), s1)
          | (Ok false, _) =>
              match session request with
              | None => ((sendStatus 500, None), s1)
              | Some _ =>
                  ((json 200 (JsonLogin (handle user) (uid user)),
                    Some {| session_handle := Some (handle user) |}),
                   with_loginLimiter (base.delete (getIpAddress request) l) s1)
              end
          | (Err _, _) => ((sendStatus 500, session request), s1)
          end
    end.
Proof.
  intros [Hh Ht] Hc. unfold_login. rewrite Hh, Ht. simpl. rewrite Hc. simpl.
  destruct (storage s !! toKey h) as [user|]; [|done].
  destruct (enabled user); simpl; [|done].
  unfold password_step, call_getPasswordHash, bind, ret, throw.
  destruct (truthy (password user)); simpl.
  - destruct (getPasswordHash _ _) as [h'|]; simpl; [|done].
    destruct (String.eqb (password user) h'); simpl; [|done].
    by destruct (session request).
  - by destruct (session request).
Qed.

(** What [/login] does when the limiter rejects. *)
Lemma login_rejected request w s h res l :
  present (body_handle request) h →
  RateLimiterMemory.consume loginLimiter_options (getIpAddress request) (now w)
    (loginLimiter s) = (Err (RateLimited res), l) →
  login request w s = ((TooManyRequests_login, session request), with_loginLimiter l s).
Proof.
  intros [Hh Ht] Hc. unfold_login. rewrite Hh, Ht. simpl. by rewrite Hc.
Qed.

End LoginFacts.

Section LoginClaims.

Context `{Imports}.

(** C2: a login request with a handle whose session object is not there
    never clears the limiter record of its origin: after the handler the
    record is there and carries one point more than was charged before.
    When the request also passes the limiter, the lookup, the enabled check
    and the password check, the handler answers 500 and the limiter is left
    as [consume] left it. *)
Theorem login_session_unavailable request w s h :
  present (body_handle request) h →
  session request = None →
  (∃ r, loginLimiter (login request w s).2 !! getIpAddress request = Some r
        ∧ RateLimiterMemory.value r
          = S (RateLimiterMemory.charged (getIpAddress request) (now w) (loginLimiter s)))
  ∧ ∀ res l user,
      RateLimiterMemory.consume loginLimiter_options (getIpAddress request) (now w)
        (loginLimiter s) = (Ok res, l) →
      storage s !! toKey h = Some user →
      enabled user = true →
      password_accepted user request →
      login request w s = ((sendStatus 500, None), with_loginLimiter l s).
Proof.
  intros Hp Hs.
  pose proof (RateLimiterFacts.consume_lookup loginLimiter_options
                (getIpAddress request) (now w) (loginLimiter s)) as Hl.
  pose proof (RateLimiterFacts.consume_outcome loginLimiter_options
                (getIpAddress request) (now w) (loginLimiter s)) as Ho.
  destruct (RateLimiterMemory.consume _ _ _ _) as [[res|[res|]] l] eqn:Hc;
    simpl in Hl, Ho; [| |done].
  - split.
    + rewrite (login_consumed _ _ _ _ _ _ Hp Hc), Hs. simpl.
      destruct (storage s !! toKey h) as [user|]; [|done].
      destruct (enabled user); simpl; [|done].
      by destruct (password_step user request _) as [[[]|] ?].
    + intros res' l' user [= <- <-] Hu He Ha.
      rewrite (login_consumed _ _ _ _ _ _ Hp Hc), Hu, He, Hs. simpl.
      by rewrite (password_step_accepted _ _ _ Ha).
  - split.
    + by rewrite (login_rejected _ _ _ _ _ _ Hp Hc).
    + intros ? ? ? [=].
Qed.


(** C5: when the handle is there, the limiter lets the request through, the
    record exists and is enabled, the password check passes and the session
    object is there, the handler deletes the limiter record of the origin,
    sets the session's handle to the record's handle and answers with the
    record's handle and uid. *)
Theorem login_success request w s h res l user sess :
  present (body_handle request) h →
  RateLimiterMemory.consume loginLimiter_options (getIpAddress request) (now w)
    (loginLimiter s) = (Ok res, l) →
  storage s !! toKey h = Some user →
  enabled user = true →
  password_accepted user request →
  session request = Some sess →
  login request w s =
    ((json 200 (JsonLogin (handle user) (uid user)),
      Some {| session_handle := Some (handle user) |}),
     with_loginLimiter (delete (getIpAddress request) l) s)
  ∧ loginLimiter (login request w s).2 !! getIpAddress request = None.
Proof.
  intros Hp Hc Hu He Ha Hs.
  rewrite (login_consumed _ _ _ _ _ _ Hp Hc), Hu, He, Hs. simpl.
  rewrite (password_step_accepted _ _ _ Ha). simpl.
  split; [done|]. apply lookup_delete_eq.
Qed.

(** C6: for a record whose password hash is empty the handler does not
    compare passwords: whatever the request carries as password (the
    request is arbitrary, and so is [getPasswordHash]), the login succeeds
    when the record exists and is enabled, the limiter lets the request
    through and the session object is there. *)
Theorem login_passwordless request w s h res l user sess :
  password user = "" →
  present (body_handle request) h →
  RateLimiterMemory.consume loginLimiter_options (getIpAddress request) (now w)
    (loginLimiter s) = (Ok res, l) →
  storage s !! toKey h = Some user →
  enabled user = true →
  session request = Some sess →
  login request w s =
    ((json 200 (JsonLogin (handle user) (uid user)),
      Some {| session_handle := Some (handle user) |}),
     with_loginLimiter (delete (getIpAddress request) l) s).
Proof.
  intros Hpw Hp Hc Hu He Hs.
  rewrite (login_consumed _ _ _ _ _ _ Hp Hc), Hu, He, Hs. simpl.
  unfold password_step. by rewrite Hpw.
Qed.

End LoginClaims.

(** ** Recovery *)

Section RecoverFacts.

Context `{Imports}.

Ltac unfold_recover :=
  unfold recover_step2, recover_step2_try, recover_step1, recover_step1_try,
    bind, ret, throw, recoverLimiter_consume, recoverLimiter_delete,
    storage_getItem, storage_setItem, call_getPasswordHash, MFA_CACHE_get,
    MFA_CACHE_set, MFA_CACHE_remove, RateLimiterMemory.delete.

(** [/recover-step2] on a request with both fields, for an enabled record. *)
Lemma recover_step2_found request w s h code user :
  present (body_handle request) h →
  present (body_code request) code →
  storage s !! toKey h = Some user →
  enabled user = true →
  recover_step2 request w s =
    let ip := getIpAddress request in
    let '(mfaCode, c) := Cache.get (handle user) (now w) (MFA_CACHE s) in
    let s1 := with_MFA_CACHE c s in
    if bool_decide (mfaCode = Some code)
    then
      match (if truthy_field (body_newPassword request)
             then getPasswordHash (body_newPassword request) (saltDraw w)
             else Some "") with
      | Some p =>
          (sendStatus 204,
           {| storage := <[toKey (handle user) := recovered user request w p]> (storage s);
              loginLimiter := loginLimiter s;
              recoverLimiter := delete ip (recoverLimiter s);
              MFA_CACHE := Cache.remove (handle user) c |})
      | None => (sendStatus 500, s1)
      end
    else
      match RateLimiterMemory.consume recoverLimiter_options ip (now w)
              (recoverLimiter s) with
      | (Ok _, l) => (json 403 (JsonError "Incorrect code"), with_recoverLimiter l s1)
      | (Err (RateLimited _), l) => (TooManyRequests_recover, with_recoverLimiter l s1)
      | (Err OtherError, l) => (sendStatus 500, with_recoverLimiter l s1)
      end.
Proof.
  intros [Hh Ht] [Hc Htc] Hu He. unfold_recover.
  rewrite Hh, Hc, Ht, Htc. simpl. rewrite Hu, He. simpl.
  destruct (Cache.get _ _ _) as [mfaCode c]. simpl.
  destruct (bool_decide (mfaCode = Some code)); simpl.
  - unfold recovered.
    destruct (truthy_field (body_newPassword request)); simpl; [|done].
    by destruct (getPasswordHash _ _).
  - by destruct (RateLimiterMemory.consume _ _ _ _) as [[?|[?|]] ?].
Qed.

(** [/recover-step2] when no record is found or the record is disabled. *)
Lemma recover_step2_rejected request w s h code :
  present (body_handle request) h →
  present (body_code request) code →
  recover_step2 request w s =
    match storage s !! toKey h with
    | None => (json 404 (JsonError "User not found"), s)
    | Some user =>
        if enabled user then recover_step2 request w s
        else (json 403 (JsonError "User is disabled"), s)
    end.
Proof.
  intros [Hh Ht] [Hc Htc].
  destruct (storage s !! toKey h) as [user|] eqn:Hu.
  - destruct (enabled user) eqn:He; [done|].
    unfold_recover. rewrite Hh, Hc, Ht, Htc. simpl. by rewrite Hu, He.
  - unfold_recover. rewrite Hh, Hc, Ht, Htc. simpl. by rewrite Hu.
Qed.

(** Without both fields the handler answers 400 and touches nothing. *)
Lemma recover_step2_missing request w s :
  (¬ ∃ h code, present (body_handle request) h ∧ present (body_code request) code) →
  recover_step2 request w s = (json 400 (JsonError "Missing required fields"), s).
Proof.
  intros Hn. unfold_recover.
  destruct (body_handle request) as [h|] eqn:Hh; [|done].
  destruct (body_code request) as [code|] eqn:Hc; [|done].
  destruct (truthy h) eqn:Ht; [|done].
  destruct (truthy code) eqn:Htc; [|done].
  destruct Hn. by exists h, code.
Qed.

End RecoverFacts.

Section RecoverStep2Claims.

Context `{Imports}.

(** C7: on a [/recover-step2] request with handle and code for an enabled
    record, when the code sent is not the code the cache returns for the
    record's handle (the cache returns nothing for a missing or expired
    entry), the recover limiter is charged one point for the origin, the
    store is not written, and the answer is 403 'Incorrect code' while the
    charge stays within the budget of 5, and 429 once it goes beyond it. *)
Theorem recover_step2_wrong_code request w s h code user :
  present (body_handle request) h →
  present (body_code request) code →
  storage s !! toKey h = Some user →
  enabled user = true →
  (Cache.get (handle user) (now w) (MFA_CACHE s)).1 ≠ Some code →
  let ip := getIpAddress request in
  let charge := S (RateLimiterMemory.charged ip (now w) (recoverLimiter s)) in
  (∃ r, recoverLimiter (recover_step2 request w s).2 !! ip = Some r
        ∧ RateLimiterMemory.value r = charge)
  ∧ storage (recover_step2 request w s).2 = storage s
  ∧ (recover_step2 request w s).1 =
      if (5 <? charge)%nat
      then json 429 (JsonError "Too many attempts. Try again later or contact your admin.")
      else json 403 (JsonError "Incorrect code").
Proof.
  intros Hp Hc Hu He Hne ip charge.
  rewrite (recover_step2_found _ _ _ _ _ _ Hp Hc Hu He).
  destruct (Cache.get _ _ _) as [mfaCode c]. simpl in Hne |- *.
  rewrite bool_decide_eq_false_2 by done.
  pose proof (RateLimiterFacts.consume_lookup recoverLimiter_options ip (now w)
                (recoverLimiter s)) as Hl.
  pose proof (RateLimiterFacts.consume_outcome recoverLimiter_options ip (now w)
                (recoverLimiter s)) as Ho.
  fold ip. destruct (RateLimiterMemory.consume _ _ _ _) as [[res|[res|]] l];
    simpl in Hl, Ho |- *; [| |done].
  - split; [done|]. split; [done|].
    destruct (Nat.ltb_spec 5 charge); [unfold charge in *; lia|done].
  - split; [done|]. split; [done|].
    destruct (Nat.ltb_spec 5 charge); [done|unfold charge in *; lia].
Qed.

(** C8: whenever [/recover-step2] answers 204, it has written for the
    looked-up record one whose password hash is non-empty exactly when its
    salt is: with a new password in the request, the salt is the fresh one
    and the hash is that of the new password under it; without one, both
    are the empty string.  Salts and hashes handed out by [users.js] are
    taken to be non-empty. *)
Theorem recover_step2_password_invariant request w s :
  (∀ p slt h', getPasswordHash p slt = Some h' → h' ≠ "") →
  saltDraw w ≠ "" →
  (recover_step2 request w s).1 = sendStatus 204 →
  ∃ h user user',
    present (body_handle request) h
    ∧ storage s !! toKey h = Some user
    ∧ storage (recover_step2 request w s).2 = <[toKey (handle user) := user']> (storage s)
    ∧ user' = set_password user (password user') (salt user')
    ∧ (password user' ≠ "" ↔ salt user' ≠ "")
    ∧ (if truthy_field (body_newPassword request)
       then salt user' = saltDraw w
            ∧ getPasswordHash (body_newPassword request) (saltDraw w)
              = Some (password user')
       else password user' = "" ∧ salt user' = "").
Proof.
  intros Hhash Hsalt Hr.
  destruct (body_handle request) as [h|] eqn:Hh;
    [destruct (body_code request) as [code|] eqn:Hc;
     [destruct (truthy h) eqn:Ht; [destruct (truthy code) eqn:Htc|]|]|].
  2-5: rewrite recover_step2_missing in Hr;
       [discriminate | intros (h' & c' & [? ?] & [? ?]); congruence].
  assert (present (body_handle request) h) as Hp by done.
  assert (present (body_code request) code) as Hpc by done.
  pose proof (recover_step2_rejected request w s h code Hp Hpc) as Hrej.
  destruct (storage s !! toKey h) as [user|] eqn:Hu;
    [|rewrite Hrej in Hr; discriminate].
  destruct (enabled user) eqn:He; [|rewrite Hrej in Hr; discriminate].
  clear Hrej. revert Hr.
  rewrite (recover_step2_found _ _ _ _ _ _ Hp Hpc Hu He).
  destruct (Cache.get _ _ _) as [mfaCode c]. simpl.
  destruct (bool_decide (mfaCode = Some code)); simpl.
  - unfold recovered.
    destruct (truthy_field (body_newPassword request)) eqn:Hn.
    + destruct (getPasswordHash _ _) as [p|] eqn:Hg; simpl; [|discriminate].
      intros _. exists h, user, (set_password user p (saltDraw w)).
      repeat split; try done. intros _. by eapply Hhash.
    + simpl. intros _. exists h, user, (set_password user "" "").
      repeat split; done.
  - destruct (RateLimiterMemory.consume _ _ _ _) as [[?|[?|]] ?]; discriminate.
Qed.

(** C10: on a [/recover-step2] request with handle and code, when no record
    is found (answer 404) or the record is disabled (answer 403), the shared
    state after the handler is the shared state before it: neither limiter,
    nor the code cache, nor the store has changed. *)
Theorem recover_step2_rejected_frame request w s h code :
  present (body_handle request) h →
  present (body_code request) code →
  (storage s !! toKey h = None
   ∨ ∃ user, storage s !! toKey h = Some user ∧ enabled user = false) →
  (recover_step2 request w s).2 = s
  ∧ (recover_step2 request w s).1 =
      match storage s !! toKey h with
      | None => json 404 (JsonError "User not found")
      | Some _ => json 403 (JsonError "User is disabled")
      end.
Proof.
  intros Hp Hc Hu. rewrite (recover_step2_rejected _ _ _ _ _ Hp Hc).
  destruct Hu as [-> | (user & -> & ->)]; done.
Qed.

End RecoverStep2Claims.

(** ** The recovery code *)

Lemma randomInt_range x : 1000 ≤ randomInt 1000 9999 x ≤ 9998.
Proof.
  unfold randomInt. pose proof (Z.mod_pos_bound x (9999 - 1000)). lia.
Qed.

Lemma randomInt_never_9999 x : randomInt 1000 9999 x ≠ 9999.
Proof. pose proof (randomInt_range x). lia. Qed.

(** Every value from 1000 to 9998 is drawn by some kept draw. *)
Lemma randomInt_onto n :
  1000 ≤ n ≤ 9998 →
  0 ≤ n - 1000 < randLimit 1000 9999 ∧ randomInt 1000 9999 (n - 1000) = n.
Proof.
  intros Hn. split.
  - assert (randLimit 1000 9999 = 281474976709202) as -> by reflexivity. lia.
  - unfold randomInt. rewrite Z.mod_small; lia.
Qed.

(** The kept draws that give [n] are [n - 1000] plus the multiples of the
    range below the limit: as many for one value as for another. *)
Lemma randomInt_uniform n x :
  0 ≤ x < randLimit 1000 9999 →
  randomInt 1000 9999 x = n ↔
  1000 ≤ n ≤ 9998
  ∧ ∃ k, 0 ≤ k < randLimit 1000 9999 / 8999 ∧ x = n - 1000 + 8999 * k.
Proof.
  assert (randLimit 1000 9999 = 281474976709202) as -> by reflexivity.
  assert (281474976709202 / 8999 = 31278472798) as -> by reflexivity.
  unfold randomInt. change (9999 - 1000) with 8999.
  intros Hx. split.
  - intros <-. split; [pose proof (Z.mod_pos_bound x 8999); lia|].
    exists (x / 8999). pose proof (Z.div_mod x 8999).
    assert (0 ≤ x / 8999) by (apply Z.div_pos; lia).
    assert (x / 8999 < 31278472798) by (apply Z.div_lt_upper_bound; lia).
    lia.
  - intros (Hn & k & Hk & ->).
    replace (n - 1000 + 8999 * k) with (n - 1000 + k * 8999) by lia.
    rewrite Z.mod_add by lia. rewrite Z.mod_small; lia.
Qed.

Lemma String_of_number_code n :
  1000 ≤ n ≤ 9998 →
  four_digits (String_of_number n) = true ∧ String_of_number n ≠ "9999".
Proof.
  intros Hn.
  assert (forallb (λ k, four_digits (String_of_number (1000 + Z.of_nat k))
                        && negb (String.eqb (String_of_number (1000 + Z.of_nat k)) "9999"))
            (seq 0 (Z.to_nat 8999)) = true) as Hall by (vm_compute; reflexivity).
  rewrite forallb_forall in Hall.
  assert (In (Z.to_nat (n - 1000)) (seq 0 (Z.to_nat 8999))) as Hin
    by (apply in_seq; lia).
  apply Hall in Hin. rewrite Z2Nat.id in Hin by lia.
  replace (1000 + (n - 1000)) with n in Hin by lia.
  apply andb_prop in Hin as [Hd Hne].
  split; [done|]. intros Heq. rewrite Heq in Hne. discriminate.
Qed.

Section RecoverStep1Claims.

Context `{Imports}.

(** C1: whenever [/recover-step1] reaches code generation (handle there,
    limiter passed, record found and enabled) it answers 204 and stores for
    the record's handle the decimal string of [randomInt(1000, 9999)], a
    four-digit string whose value lies between 1000 and 9998: the upper
    bound of [randomInt] is exclusive, so '9999' is never the code and the
    code space has 8999 values. *)
Theorem recover_step1_code_space request w s h res l user :
  present (body_handle request) h →
  RateLimiterMemory.consume recoverLimiter_options (getIpAddress request) (now w)
    (recoverLimiter s) = (Ok res, l) →
  storage s !! toKey h = Some user →
  enabled user = true →
  let n := randomInt 1000 9999 (intDraw w) in
  recover_step1 request w s =
    (sendStatus 204,
     with_MFA_CACHE
       (<[handle user := {| Cache.value := String_of_number n;
                            Cache.expiry := now w + 300000 |}]> (MFA_CACHE s))
       (with_recoverLimiter l s))
  ∧ 1000 ≤ n ≤ 9998
  ∧ four_digits (String_of_number n) = true
  ∧ String_of_number n ≠ "9999".
Proof.
  intros [Hh Ht] Hc Hu He n.
  split; [|split; [apply randomInt_range|apply String_of_number_code, randomInt_range]].
  unfold recover_step1, recover_step1_try, bind, ret, recoverLimiter_consume,
    storage_getItem, MFA_CACHE_set.
  rewrite Hh, Ht. simpl. rewrite Hc. simpl. by rewrite Hu, He.
Qed.

End RecoverStep1Claims.

(** ** The user list *)

Section ListClaims.

Context `{Imports}.

(** C9: with discreet login off, [/list] answers with the view models of
    exactly the stored records under the user prefix whose [enabled] flag is
    set, ordered by creation time; each listed view model comes from a
    stored record that is enabled, so a disabled record contributes no
    element.  The shared state is left as it was. *)
Theorem list_enabled_only s :
  DISCREET_LOGIN = false →
  ∃ l,
    list_route s = (json 200 (JsonList l), s)
    ∧ l ≡ₚ toViewModel <$>
             List.filter enabled
               (snd <$> List.filter (λ x, String.prefix KEY_PREFIX x.1)
                          (map_to_list (storage s)))
    ∧ Sorted by_created l
    ∧ ∀ vm, vm ∈ l →
        ∃ key user, storage s !! key = Some user
                    ∧ String.prefix KEY_PREFIX key = true
                    ∧ enabled user = true
                    ∧ vm = toViewModel user.
Proof.
  intros Hd. eexists. unfold list_route, list_try, bind, ret, storage_values.
  rewrite Hd. simpl. split; [reflexivity|].
  split; [apply merge_sort_Permutation|].
  split; [apply Sorted_merge_sort; apply _|].
  intros vm Hvm. rewrite merge_sort_Permutation in Hvm.
  apply list_elem_of_fmap in Hvm as (user & -> & Hu).
  apply list_elem_of_In, filter_In in Hu as [Hu He].
  apply list_elem_of_In, list_elem_of_fmap in Hu as ([key user'] & -> & Hk).
  apply list_elem_of_In, filter_In in Hk as [Hk Hp].
  apply list_elem_of_In, elem_of_map_to_list in Hk.
  by exists key, user'.
Qed.

End ListClaims.

(** ** Repeated login attempts *)

Section RepeatedLogin.

Context `{Imports}.

(** One wrong-password attempt: the origin is charged a point, and the
    answer depends only on the charge reached. *)
Lemma login_wrong_attempt request w s :
  wrong_password_attempt s request →
  login request w s =
    ((verdict (S (RateLimiterMemory.charged (getIpAddress request) (now w)
                    (loginLimiter s))),
      session request),
     with_loginLimiter
       (RateLimiterMemory.incrby (getIpAddress request) 1 60 (now w)
          (loginLimiter s)).2 s).
Proof.
  intros (h & user & Hp & Hu & He & Hw).
  pose proof (RateLimiterFacts.consume_store loginLimiter_options
                (getIpAddress request) (now w) (loginLimiter s)) as Hst.
  pose proof (RateLimiterFacts.consume_outcome loginLimiter_options
                (getIpAddress request) (now w) (loginLimiter s)) as Ho.
  destruct (RateLimiterMemory.consume _ _ _ _) as [[res|[res|]] l] eqn:Hc;
    simpl in Hst, Ho; [| |done]; subst l.
  - rewrite (login_consumed _ _ _ _ _ _ Hp Hc), Hu, He. simpl.
    rewrite (password_step_wrong _ _ _ Hw). unfold verdict.
    destruct (Nat.ltb_spec 5 (S (RateLimiterMemory.charged (getIpAddress request)
                                   (now w) (loginLimiter s)))); [lia|done].
  - rewrite (login_rejected _ _ _ _ _ _ Hp Hc). unfold verdict.
    destruct (Nat.ltb_spec 5 (S (RateLimiterMemory.charged (getIpAddress request)
                                   (now w) (loginLimiter s)))); [done|lia].
Qed.

(** Wrong-password attempts of one origin while its window is in force: the
    i-th answer is the verdict on the charge the window had plus i. *)
Lemma login_all_in_force origin reqs :
  ∀ s r,
    loginLimiter s !! origin = Some r →
    Forall (λ rw, getIpAddress rw.1 = origin
                  ∧ wrong_password_attempt s rw.1
                  ∧ RateLimiterMemory.in_force (now rw.2) r = true) reqs →
    (login_all reqs s).1
    = (λ i, verdict (RateLimiterMemory.value r + S i)) <$> seq 0 (length reqs).
Proof.
  induction reqs as [|[request w] rest IH]; intros s r Hr Hall; [done|].
  apply Forall_cons in Hall as [(Hip & Hw & Hf) Hrest]. simpl in Hip, Hw, Hf.
  simpl. rewrite (login_wrong_attempt _ _ _ Hw), Hip.
  rewrite (RateLimiterFacts.charged_in_force _ _ _ _ Hr Hf).
  rewrite (RateLimiterFacts.incrby_in_force _ _ _ _ _ _ Hr Hf).
  set (r' := {| RateLimiterMemory.value := (RateLimiterMemory.value r + 1)%nat;
                RateLimiterMemory.expiresAt := RateLimiterMemory.expiresAt r |}).
  set (s' := with_loginLimiter _ s).
  specialize (IH s' r').
  destruct (login_all rest s') as [responses s''] eqn:Hrun. simpl in IH |- *.
  rewrite IH.
  - f_equal; [f_equal; lia|].
    rewrite <- fmap_S_seq, <- list_fmap_compose.
    apply list_fmap_ext. intros i j _. simpl. f_equal. unfold r'. simpl. lia.
  - unfold s'. simpl. apply lookup_insert_eq.
  - eapply Forall_impl; [exact Hrest|]. intros [rq w'] (? & ? & ?). done.
Qed.

End RepeatedLogin.

Section RepeatedLoginClaims.

Context `{Imports}.

(** Six login attempts for enabled records with a password, each with a
    password whose hash is computed and differs from the stored one, from
    one origin, each less than 60 seconds after the first, while the
    limiter window of the origin does not end in between: the sixth is
    answered 429.  When no window of the origin is in force at the first
    attempt, the first five are answered 403 'Incorrect credentials' and
    the sixth 429. *)
Lemma login_six_wrong_passwords origin request1 w1 rest s :
  length rest = 5%nat →
  Forall (λ rw, getIpAddress rw.1 = origin
                ∧ wrong_password_attempt s rw.1
                ∧ now rw.2 < now w1 + 60000) ((request1, w1) :: rest) →
  window_holds origin (now w1) ((request1, w1) :: rest) s →
  (login_all ((request1, w1) :: rest) s).1 !! 5%nat
  = Some (json 429 (JsonError "Too many attempts. Try again later or recover your password."))
  ∧ (window_fresh origin (now w1) s →
     (login_all ((request1, w1) :: rest) s).1
     = (replicate 5 (json 403 (JsonError "Incorrect credentials"))
        ++ [json 429 (JsonError "Too many attempts. Try again later or recover your password.")])%list).
Proof.
  intros Hlen Hall Hwin.
  assert (window_fresh origin (now w1) s →
          (login_all ((request1, w1) :: rest) s).1
          = (replicate 5 Forbidden_incorrect_credentials ++ [TooManyRequests_login])%list)
    as Hfresh.
  { intros Hf. unfold window_fresh in Hf.
    apply Forall_cons in Hall as [(Hip & Hw & _) Hrest]. simpl in Hip, Hw.
    simpl. rewrite (login_wrong_attempt _ _ _ Hw), Hip.
    rewrite (RateLimiterFacts.charged_fresh _ _ _ Hf).
    rewrite (RateLimiterFacts.incrby_fresh _ _ _ _ _ Hf).
    set (r1 := {| RateLimiterMemory.value := 1%nat;
                  RateLimiterMemory.expiresAt := _ |}).
    set (s1 := with_loginLimiter _ s).
    pose proof (login_all_in_force origin rest s1 r1) as Hrun.
    destruct (login_all rest s1) as [responses s2]. simpl in Hrun |- *.
    rewrite Hrun, Hlen; [done|apply lookup_insert_eq|].
    eapply Forall_impl; [exact Hrest|]. intros [rq w'] (? & ? & Ht).
    simpl in *. repeat split; [done..|].
    unfold RateLimiterMemory.in_force, r1. simpl. apply Z.ltb_lt. lia. }
  unfold window_holds in Hwin.
  destruct (loginLimiter s !! origin) as [r|] eqn:Hr.
  - destruct Hwin as [Hexp | Hlive].
    + assert (window_fresh origin (now w1) s) as Hf
        by (unfold window_fresh; by rewrite Hr).
      split; [by rewrite (Hfresh Hf)|done].
    + split.
      * rewrite (login_all_in_force origin _ s r Hr).
        -- simpl length. rewrite Hlen. simpl. unfold verdict.
           destruct (Nat.ltb_spec 5 (RateLimiterMemory.value r + 6)); [done|lia].
        -- apply Forall_and. split; [|apply Forall_and; split].
           ++ eapply Forall_impl; [exact Hall|]. by intros ? (? & ? & ?).
           ++ eapply Forall_impl; [exact Hall|]. by intros ? (? & ? & ?).
           ++ done.
      * done.
  - assert (window_fresh origin (now w1) s) as Hf
      by (unfold window_fresh; by rewrite Hr).
    split; [by rewrite (Hfresh Hf)|done].
Qed.

End RepeatedLoginClaims.

(** ** The statements at concrete inputs *)

Section Witnesses.

#[local] Existing Instance demo_imports.

(** Every request of the list is a wrong-password attempt for alice. *)
Ltac all_wrong_attempts :=
  repeat (apply Forall_cons; split;
          [ split; [reflexivity|];
            split; [|reflexivity];
            exists "alice", alice; repeat split; try reflexivity;
            exists "h(guess,s1)"; split; [reflexivity|discriminate]
          | ]);
  constructor.

Lemma login_session_unavailable_witness :
  login (demo_no_session (Some "bob") None) (at_time 0) demo_state
  = ((sendStatus 500, None), with_loginLimiter (first_point 60000) demo_state).
Proof.
  apply (proj2 (login_session_unavailable
                  (demo_no_session (Some "bob") None) (at_time 0) demo_state "bob"
                  (conj eq_refl eq_refl) eq_refl)
           (first_res 60000) (first_point 60000) bob).
  - reflexivity.
  - reflexivity.
  - reflexivity.
  - left. reflexivity.
Defined.


Lemma login_success_witness :
  login (demo_request (Some "alice") (Some "secret")) (at_time 0) demo_state
  = ((json 200 (JsonLogin "alice" "u-1"), Some {| session_handle := Some "alice" |}),
     with_loginLimiter (delete "10.0.0.1" (first_point 60000)) demo_state).
Proof.
  refine (proj1 (login_success
           (demo_request (Some "alice") (Some "secret")) (at_time 0) demo_state "alice"
           (first_res 60000) (first_point 60000) alice {| session_handle := None |}
           _ _ _ _ _ _)).
  - split; reflexivity.
  - reflexivity.
  - reflexivity.
  - reflexivity.
  - right. reflexivity.
  - reflexivity.
Defined.

Lemma login_passwordless_witness :
  login (demo_request (Some "bob") (Some "anything")) (at_time 0) demo_state
  = ((json 200 (JsonLogin "bob" "u-2"), Some {| session_handle := Some "bob" |}),
     with_loginLimiter (delete "10.0.0.1" (first_point 60000)) demo_state).
Proof.
  refine (login_passwordless
            (demo_request (Some "bob") (Some "anything")) (at_time 0) demo_state "bob"
            (first_res 60000) (first_point 60000) bob {| session_handle := None |}
            _ _ _ _ _ _).
  - reflexivity.
  - split; reflexivity.
  - reflexivity.
  - reflexivity.
  - reflexivity.
  - reflexivity.
Defined.

Lemma recover_step2_wrong_code_witness :
  (recover_step2 (demo_recover (Some "alice") (Some "0000") None) (at_time 5)
     demo_recovering).1
  = json 403 (JsonError "Incorrect code")
  ∧ ∃ r, recoverLimiter
           (recover_step2 (demo_recover (Some "alice") (Some "0000") None) (at_time 5)
              demo_recovering).2 !! "10.0.0.1" = Some r
         ∧ RateLimiterMemory.value r = 2%nat.
Proof.
  destruct (recover_step2_wrong_code
              (demo_recover (Some "alice") (Some "0000") None) (at_time 5)
              demo_recovering "alice" "0000" alice) as (Hr & _ & Hresp).
  - split; reflexivity.
  - split; reflexivity.
  - reflexivity.
  - reflexivity.
  - vm_compute. discriminate.
  - split; [exact Hresp|exact Hr].
Defined.

Lemma recover_step2_password_invariant_witness :
  ∃ user',
    storage (recover_step2 (demo_recover (Some "alice") (Some "9507") (Some "fresh"))
               (at_time 5) demo_recovering).2
    = <["user:alice" := user']> (storage demo_recovering)
    ∧ (password user' ≠ "" ↔ salt user' ≠ "").
Proof.
  destruct (recover_step2_password_invariant
              (demo_recover (Some "alice") (Some "9507") (Some "fresh")) (at_time 5)
              demo_recovering) as (h & user & user' & Hp & Hu & Hst & _ & Hinv & _).
  - intros [p|] slt h' [= <-]. discriminate.
  - discriminate.
  - reflexivity.
  - exists user'. split; [|exact Hinv].
    destruct Hp as [[= <-] _]. injection Hu as <-. exact Hst.
Defined.

Lemma recover_step2_rejected_frame_witness :
  (recover_step2 (demo_recover (Some "carol") (Some "9507") None) (at_time 5)
     demo_recovering).2 = demo_recovering.
Proof.
  refine (proj1 (recover_step2_rejected_frame
                   (demo_recover (Some "carol") (Some "9507") None) (at_time 5)
                   demo_recovering "carol" "9507" _ _ _)).
  - split; reflexivity.
  - split; reflexivity.
  - right. exists carol. split; reflexivity.
Defined.

Lemma recover_step1_code_space_witness :
  recover_step1 (demo_recover (Some "alice") None None) (at_time 0) demo_state
  = (sendStatus 204,
     with_MFA_CACHE
       (<["alice" := {| Cache.value := "9507"; Cache.expiry := 300000 |}]> ∅)
       (with_recoverLimiter (first_point 300000) demo_state)).
Proof.
  refine (proj1 (recover_step1_code_space
                   (demo_recover (Some "alice") None None) (at_time 0) demo_state
                   "alice" (first_res 300000) (first_point 300000) alice _ _ _ _)).
  - split; reflexivity.
  - reflexivity.
  - reflexivity.
  - reflexivity.
Defined.

Lemma list_enabled_only_witness :
  ∃ l, list_route demo_state = (json 200 (JsonList l), demo_state)
       ∧ ∀ vm, vm ∈ l →
           ∃ key user, storage demo_state !! key = Some user
                       ∧ enabled user = true ∧ vm = toViewModel user.
Proof.
  destruct (list_enabled_only demo_state) as (l & Hl & _ & _ & Hin).
  - reflexivity.
  - exists l. split; [exact Hl|].
    intros vm Hvm. destruct (Hin vm Hvm) as (key & user & Hk & _ & He & Hv).
    exists key, user. repeat split; assumption.
Defined.

(** C3 as stated, without the condition on the window, fails: after one
    failed login at time 0 the window of the origin ends at 60 s; three
    wrong-password attempts at 59 s and three at 60.5 s are six attempts
    from that origin within 1.5 s, and all six are answered 403: the sixth
    is not answered 429. *)
Lemma login_sixth_attempt_window_rollover :
  Forall (λ rw, getIpAddress rw.1 = "10.0.0.1"
                ∧ wrong_password_attempt demo_after_failure rw.1
                ∧ now rw.2 < 59000 + 60000)
    [wrong_attempt 59000; wrong_attempt 59000; wrong_attempt 59000;
     wrong_attempt 60500; wrong_attempt 60500; wrong_attempt 60500]
  ∧ (login_all [wrong_attempt 59000; wrong_attempt 59000; wrong_attempt 59000;
                wrong_attempt 60500; wrong_attempt 60500; wrong_attempt 60500]
       demo_after_failure).1 !! 5%nat
    = Some (json 403 (JsonError "Incorrect credentials"))
  ∧ (login_all [wrong_attempt 59000; wrong_attempt 59000; wrong_attempt 59000;
                wrong_attempt 60500; wrong_attempt 60500; wrong_attempt 60500]
       demo_after_failure).1 !! 5%nat
    ≠ Some (json 429 (JsonError "Too many attempts. Try again later or recover your password.")).
Proof.
  split; [all_wrong_attempts|].
  split; [vm_compute; reflexivity|].
  vm_compute. discriminate.
Qed.

(** ** Runs of the scenarios *)

(** The listing leaves out carol, who is disabled, and orders by creation. *)
Example list_route_demo :
  (list_route demo_state).1
  = json 200 (JsonList [toViewModel bob; toViewModel alice]).
Proof. vm_compute. reflexivity. Qed.

(** The largest residue of the draw gives 9998. *)
Example randomInt_largest : randomInt 1000 9999 8998 = 9998.
Proof. reflexivity. Qed.

(** A recovery with the right code and a new password: the new password
    then logs in and the old one does not. *)
Example recover_then_login :
  let s2 := (recover_step2 (demo_recover (Some "alice") (Some "9507") (Some "fresh"))
               (at_time 5) demo_recovering).2 in
  (login (demo_request (Some "alice") (Some "fresh")) (at_time 10) s2).1.1
  = json 200 (JsonLogin "alice" "u-1")
  ∧ (login (demo_request (Some "alice") (Some "secret")) (at_time 10) s2).1.1
    = json 403 (JsonError "Incorrect credentials").
Proof. split; vm_compute; reflexivity. Qed.

(** A recovery with the right code and no new password clears the
    password: any password then logs in. *)
Example recover_clears_password :
  let s2 := (recover_step2 (demo_recover (Some "alice") (Some "9507") None)
               (at_time 5) demo_recovering).2 in
  (login (demo_request (Some "alice") (Some "whatever")) (at_time 10) s2).1.1
  = json 200 (JsonLogin "alice" "u-1")
  ∧ (login (demo_request (Some "alice") None) (at_time 10) s2).1.1
    = json 200 (JsonLogin "alice" "u-1").
Proof. split; vm_compute; reflexivity. Qed.

(** The code is gone once its five minutes are over. *)
Example recover_code_expired :
  (recover_step2 (demo_recover (Some "alice") (Some "9507") (Some "fresh"))
     (at_time 300000) demo_recovering).1
  = json 403 (JsonError "Incorrect code").
Proof. vm_compute. reflexivity. Qed.

End Witnesses.

(** ** Further properties of the routes *)

Lemma truthy_field_cases (x : option string) :
  truthy_field x = false ∨ ∃ h, present x h.
Proof.
  destruct x as [h|]; [|by left].
  destruct (truthy h) eqn:Ht; [right; by exists h|by left].
Qed.

Lemma Cache_get_live k t c v :
  (Cache.get k t c).1 = Some v ↔ live_code c k t v.
Proof.
  unfold Cache.get, live_code. destruct (c !! k) as [e|] eqn:He.
  - destruct (Z.ltb_spec t (Cache.expiry e)); simpl.
    + split; [intros [= <-]; by exists e|].
      intros (e' & [= <-] & <- & _). done.
    + split; [done|]. intros (e' & [= <-] & _ & ?). lia.
  - simpl. split; [done|]. by intros (e' & [=] & _).
Qed.

Module MoreRateLimiterFacts.
Import RateLimiterMemory.

(** [consume] either resolves within the budget or rejects beyond it; the
    store it leaves is that of [incrby] in both cases. *)
Lemma consume_cases opts key t st :
  (∃ res, consume opts key t st = (Ok res, (incrby key 1 (duration opts) t st).2)
          ∧ (S (charged key t st) ≤ points opts)%nat)
  ∨ (∃ res, consume opts key t st
            = (Err (RateLimited res), (incrby key 1 (duration opts) t st).2)
            ∧ (points opts < S (charged key t st))%nat).
Proof.
  pose proof (RateLimiterFacts.consume_store opts key t st) as Hs.
  pose proof (RateLimiterFacts.consume_outcome opts key t st) as Ho.
  destruct (consume opts key t st) as [[res|[res|]] l]; simpl in *; subst l;
    [left|right|done]; by exists res.
Qed.

(** A record in force keeps the end of its window when it is charged. *)
Lemma incrby_keeps_window key v d t st r :
  st !! key = Some r →
  in_force t r = true →
  ∃ r', (incrby key v d t st).2 !! key = Some r'
        ∧ value r' = (value r + v)%nat
        ∧ expiresAt r' = expiresAt r.
Proof.
  intros Hr Hf. rewrite (RateLimiterFacts.incrby_in_force _ _ _ _ _ _ Hr Hf).
  eexists. by rewrite lookup_insert_eq.
Qed.

End MoreRateLimiterFacts.

Section RouteCases.

Context `{Imports}.

Ltac unfold_routes :=
  unfold login, login_try, recover_step2, recover_step2_try, recover_step1,
    recover_step1_try, bind, ret, throw, loginLimiter_consume,
    loginLimiter_delete, recoverLimiter_consume, recoverLimiter_delete,
    storage_getItem, storage_setItem, call_getPasswordHash, MFA_CACHE_get,
    MFA_CACHE_set, MFA_CACHE_remove, RateLimiterMemory.delete.

Lemma login_missing request w s :
  truthy_field (body_handle request) = false →
  login request w s
  = ((json 400 (JsonError "Missing required fields"), session request), s).
Proof.
  unfold_routes. destruct (body_handle request) as [h|]; [|done].
  simpl. by intros ->.
Qed.

Lemma recover_step1_missing request w s :
  truthy_field (body_handle request) = false →
  recover_step1 request w s = (json 400 (JsonError "Missing required fields"), s).
Proof.
  unfold_routes. destruct (body_handle request) as [h|]; [|done].
  simpl. by intros ->.
Qed.

(** What [/recover-step1] does once the handle is there and the limiter let
    the request through. *)
Lemma recover_step1_consumed request w s h res l :
  present (body_handle request) h →
  RateLimiterMemory.consume recoverLimiter_options (getIpAddress request) (now w)
    (recoverLimiter s) = (Ok res, l) →
  recover_step1 request w s =
    let s1 := with_recoverLimiter l s in
    match storage s !! toKey h with
    | None => (json 404 (JsonError "User not found"), s1)
    | Some user =>
        if enabled user
        then (sendStatus 204,
              with_MFA_CACHE
                (Cache.set MFA_CACHE_ttl (handle user)
                   (String_of_number (randomInt 1000 9999 (intDraw w))) (now w)
                   (MFA_CACHE s)) s1)
        else (json 403 (JsonError "User is disabled"), s1)
    end.
Proof.
  intros [Hh Ht] Hc. unfold_routes. rewrite Hh, Ht. simpl. rewrite Hc. simpl.
  destruct (storage s !! toKey h) as [user|]; [|done].
  by destruct (enabled user).
Qed.

Lemma recover_step1_limited request w s h res l :
  present (body_handle request) h →
  RateLimiterMemory.consume recoverLimiter_options (getIpAddress request) (now w)
    (recoverLimiter s) = (Err (RateLimited res), l) →
  recover_step1 request w s = (TooManyRequests_recover, with_recoverLimiter l s).
Proof.
  intros [Hh Ht] Hc. unfold_routes. rewrite Hh, Ht. simpl. by rewrite Hc.
Qed.

End RouteCases.

Section LoginExtras.

Context `{Imports}.

Lemma password_step_inv user request s b s' :
  password_step user request s = (Ok b, s') →
  s' = s ∧ (if b then wrong_password user request else password_accepted user request).
Proof.
  unfold password_step, call_getPasswordHash, bind, ret, throw,
    wrong_password, password_accepted.
  destruct (truthy (password user)) eqn:Ht; simpl.
  - destruct (getPasswordHash _ _) as [h'|] eqn:Hh; simpl; [|done].
    destruct (String.eqb_spec (password user) h') as [Heq|Hne]; simpl;
      intros [= <- <-]; split; try done.
    + right. by rewrite Heq.
    + split; [done|]. exists h'. split; [done|congruence].
  - intros [= <- <-]. split; [done|by left].
Qed.

(** X2: [/login] changes nothing of the shared state but the login
    limiter: the store, the recover limiter and the code cache are after
    the handler what they were before, whatever the request and its
    outcome. *)
Theorem login_frame request w s :
  storage (login request w s).2 = storage s
  ∧ recoverLimiter (login request w s).2 = recoverLimiter s
  ∧ MFA_CACHE (login request w s).2 = MFA_CACHE s.
Proof.
  destruct (truthy_field_cases (body_handle request)) as [Hm | [h Hp]].
  { by rewrite (login_missing _ _ _ Hm). }
  destruct (MoreRateLimiterFacts.consume_cases loginLimiter_options
              (getIpAddress request) (now w) (loginLimiter s))
    as [(res & Hc & _) | (res & Hc & _)].
  - rewrite (login_consumed _ _ _ _ _ _ Hp Hc). simpl.
    destruct (storage s !! toKey h) as [user|]; [|done].
    destruct (enabled user); simpl; [|done].
    destruct (password_step user request _) as [[[]|] ?]; try done.
    by destruct (session request).
  - by rewrite (login_rejected _ _ _ _ _ _ Hp Hc).
Qed.

(** X5: an origin that already has five points in the window in force is
    answered 429 on every login request with a handle, whatever the handle
    and the password (correct ones too); nothing is looked up, the session
    is left alone, the attempt is still counted and the end of the window
    stays where it was. *)
Theorem login_locked_out request w s h r :
  present (body_handle request) h →
  loginLimiter s !! getIpAddress request = Some r →
  RateLimiterMemory.in_force (now w) r = true →
  (5 ≤ RateLimiterMemory.value r)%nat →
  (login request w s).1
  = (json 429 (JsonError "Too many attempts. Try again later or recover your password."),
     session request)
  ∧ ∃ r', loginLimiter (login request w s).2 !! getIpAddress request = Some r'
          ∧ RateLimiterMemory.value r' = S (RateLimiterMemory.value r)
          ∧ RateLimiterMemory.expiresAt r' = RateLimiterMemory.expiresAt r.
Proof.
  intros Hp Hr Hf Hv.
  destruct (MoreRateLimiterFacts.consume_cases loginLimiter_options
              (getIpAddress request) (now w) (loginLimiter s))
    as [(res & Hc & Hle) | (res & Hc & _)].
  { rewrite (RateLimiterFacts.charged_in_force _ _ _ _ Hr Hf) in Hle.
    simpl in Hle. lia. }
  rewrite (login_rejected _ _ _ _ _ _ Hp Hc). split; [done|]. simpl.
  destruct (MoreRateLimiterFacts.incrby_keeps_window (getIpAddress request) 1 60
              (now w) (loginLimiter s) r Hr Hf) as (r' & Hr' & Hv' & He').
  exists r'. split; [done|]. split; [lia|done].
Qed.

(** X6: once the window of an origin has ended (or it has none), a login
    request with a handle is never answered 429, whatever count the ended
    window had reached; unless the login succeeds, the origin then has a new
    window holding one point that ends 60 seconds after this request. *)
Theorem login_after_window request w s h :
  present (body_handle request) h →
  window_fresh (getIpAddress request) (now w) s →
  status (login request w s).1.1 ≠ 429
  ∧ (status (login request w s).1.1 ≠ 200 →
     loginLimiter (login request w s).2
     = <[getIpAddress request :=
           {| RateLimiterMemory.value := 1;
              RateLimiterMemory.expiresAt := Some (now w + 60000) |}]>
         (loginLimiter s)).
Proof.
  intros Hp Hf. unfold window_fresh in Hf.
  destruct (MoreRateLimiterFacts.consume_cases loginLimiter_options
              (getIpAddress request) (now w) (loginLimiter s))
    as [(res & Hc & _) | (res & _ & Hlt)].
  2: { rewrite (RateLimiterFacts.charged_fresh _ _ _ Hf) in Hlt. simpl in Hlt. lia. }
  rewrite (RateLimiterFacts.incrby_fresh _ _ _ _ _ Hf) in Hc.
  rewrite (login_consumed _ _ _ _ _ _ Hp Hc). simpl.
  destruct (storage s !! toKey h) as [user|]; [|done].
  destruct (enabled user); simpl; [|done].
  destruct (password_step user request _) as [[[]|] ?]; try done.
  by destruct (session request).
Qed.

(** X8: [/login] answers 200 only to a request with a handle whose record
    exists, is enabled and passes the password check, with a session object
    there; the answer then carries that record's handle and uid and the
    session is bound to the handle.  In every other case the status is not
    200 and the session object is left as it was. *)
Theorem login_sound request w s :
  (∃ h user sess,
      present (body_handle request) h
      ∧ storage s !! toKey h = Some user
      ∧ enabled user = true
      ∧ password_accepted user request
      ∧ session request = Some sess
      ∧ (login request w s).1
        = (json 200 (JsonLogin (handle user) (uid user)),
           Some {| session_handle := Some (handle user) |}))
  ∨ (status (login request w s).1.1 ≠ 200
     ∧ (login request w s).1.2 = session request).
Proof.
  destruct (truthy_field_cases (body_handle request)) as [Hm | [h Hp]].
  { right. by rewrite (login_missing _ _ _ Hm). }
  destruct (MoreRateLimiterFacts.consume_cases loginLimiter_options
              (getIpAddress request) (now w) (loginLimiter s))
    as [(res & Hc & _) | (res & Hc & _)].
  2: { right. by rewrite (login_rejected _ _ _ _ _ _ Hp Hc). }
  rewrite (login_consumed _ _ _ _ _ _ Hp Hc). simpl.
  destruct (storage s !! toKey h) as [user|] eqn:Hu; [|by right].
  destruct (enabled user) eqn:He; simpl; [|by right].
  destruct (password_step user request _) as [[[]|] ?] eqn:Hps;
    [by right| |by right].
  apply password_step_inv in Hps as [_ Ha].
  destruct (session request) as [sess|] eqn:Hs; [|by right].
  left. by exists h, user, sess.
Qed.

End LoginExtras.

Section RecoverExtras.

Context `{Imports}.

(** The four ways [/recover-step2] can go. *)
Lemma recover_step2_cases request w s :
  recover_step2 request w s = (json 400 (JsonError "Missing required fields"), s)
  ∨ (∃ h code, present (body_handle request) h ∧ present (body_code request) code
       ∧ ((storage s !! toKey h = None
           ∧ recover_step2 request w s = (json 404 (JsonError "User not found"), s))
          ∨ (∃ user, storage s !! toKey h = Some user
               ∧ ((enabled user = false
                   ∧ recover_step2 request w s
                     = (json 403 (JsonError "User is disabled"), s))
                  ∨ enabled user = true)))).
Proof.
  destruct (truthy_field_cases (body_handle request)) as [Hm | [h Hp]].
  { left. apply recover_step2_missing. intros (h & c & [Hh Ht] & _).
    rewrite Hh in Hm. simpl in Hm. congruence. }
  destruct (truthy_field_cases (body_code request)) as [Hm | [code Hc]].
  { left. apply recover_step2_missing. intros (h' & c & _ & [Hh Ht]).
    rewrite Hh in Hm. simpl in Hm. congruence. }
  right. exists h, code. split; [done|]. split; [done|].
  pose proof (recover_step2_rejected request w s h code Hp Hc) as Hr.
  destruct (storage s !! toKey h) as [user|]; [|by left].
  right. exists user. split; [done|].
  destruct (enabled user); [by right|by left].
Qed.

Lemma present_unique (x : option string) h h' :
  present x h → present x h' → h = h'.
Proof. intros [-> _] [[= ->] _]. done. Qed.

(** X1: a request without its required fields (no handle, or for step 2 no
    handle or no code; an empty string counts as missing) is answered 400
    before anything else happens: the shared state, limiters included, and
    the session are left as they were. *)
Theorem required_fields_missing request w s :
  truthy_field (body_handle request) = false
  ∨ truthy_field (body_code request) = false →
  recover_step2 request w s = (json 400 (JsonError "Missing required fields"), s)
  ∧ (truthy_field (body_handle request) = false →
     login request w s
     = ((json 400 (JsonError "Missing required fields"), session request), s)
     ∧ recover_step1 request w s
       = (json 400 (JsonError "Missing required fields"), s)).
Proof.
  intros Hm. split.
  - apply recover_step2_missing. intros (h & c & [Hh Ht] & [Hc Htc]).
    rewrite Hh, Hc in Hm. simpl in Hm. destruct Hm; congruence.
  - intros Hh. split; [by apply login_missing|by apply recover_step1_missing].
Qed.

(** X3: the recovery routes never touch the login limiter, step 1 never
    writes the store, and [/list] changes nothing at all. *)
Theorem recover_frame request w s :
  loginLimiter (recover_step1 request w s).2 = loginLimiter s
  ∧ storage (recover_step1 request w s).2 = storage s
  ∧ loginLimiter (recover_step2 request w s).2 = loginLimiter s
  ∧ (list_route s).2 = s.
Proof.
  assert (loginLimiter (recover_step1 request w s).2 = loginLimiter s
          ∧ storage (recover_step1 request w s).2 = storage s) as [H1 H2].
  { destruct (truthy_field_cases (body_handle request)) as [Hm | [h Hp]].
    { by rewrite (recover_step1_missing _ _ _ Hm). }
    destruct (MoreRateLimiterFacts.consume_cases recoverLimiter_options
                (getIpAddress request) (now w) (recoverLimiter s))
      as [(res & Hc & _) | (res & Hc & _)].
    - rewrite (recover_step1_consumed _ _ _ _ _ _ Hp Hc). simpl.
      destruct (storage s !! toKey h) as [user|]; [|done].
      by destruct (enabled user).
    - by rewrite (recover_step1_limited _ _ _ _ _ _ Hp Hc). }
  split; [done|]. split; [done|]. split.
  - destruct (recover_step2_cases request w s)
      as [-> | (h & code & Hp & Hc & [[_ ->] | (user & Hu & [[_ ->] | He])])];
      try done.
    rewrite (recover_step2_found _ _ _ _ _ _ Hp Hc Hu He).
    destruct (Cache.get _ _ _) as [mfaCode c]. simpl.
    destruct (bool_decide (mfaCode = Some code)).
    + destruct (truthy_field (body_newPassword request)); [|done].
      by destruct (getPasswordHash _ _).
    + by destruct (RateLimiterMemory.consume _ _ _ _) as [[?|[?|]] ?].
  - unfold list_route, list_try, bind, ret, storage_values.
    by destruct DISCREET_LOGIN.
Qed.

(** X4: for a disabled record, [/login] and [/recover-step1] answer 403
    'User is disabled' whenever the limiter lets the request through,
    whatever password the request carries; the point charged is kept, the
    session is left alone and no recovery code is stored. *)
Theorem disabled_record_refused request w s h user :
  present (body_handle request) h →
  storage s !! toKey h = Some user →
  enabled user = false →
  (∀ res l,
      RateLimiterMemory.consume loginLimiter_options (getIpAddress request) (now w)
        (loginLimiter s) = (Ok res, l) →
      login request w s
      = ((json 403 (JsonError "User is disabled"), session request),
         with_loginLimiter l s))
  ∧ (∀ res l,
      RateLimiterMemory.consume recoverLimiter_options (getIpAddress request) (now w)
        (recoverLimiter s) = (Ok res, l) →
      recover_step1 request w s
      = (json 403 (JsonError "User is disabled"), with_recoverLimiter l s)).
Proof.
  intros Hp Hu He. split; intros res l Hc.
  - by rewrite (login_consumed _ _ _ _ _ _ Hp Hc), Hu, He.
  - by rewrite (recover_step1_consumed _ _ _ _ _ _ Hp Hc), Hu, He.
Qed.

(** X7: the limiters are keyed by origin: whatever a request does to the
    limiter of its route, the records of every other origin are left as
    they were. *)
Theorem limiters_keyed_by_origin request w s ip' :
  ip' ≠ getIpAddress request →
  loginLimiter (login request w s).2 !! ip' = loginLimiter s !! ip'
  ∧ recoverLimiter (recover_step1 request w s).2 !! ip' = recoverLimiter s !! ip'
  ∧ recoverLimiter (recover_step2 request w s).2 !! ip' = recoverLimiter s !! ip'.
Proof.
  intros Hne.
  assert (∀ opts st, (RateLimiterMemory.consume opts (getIpAddress request)
                        (now w) st).2 !! ip' = st !! ip') as Hother
    by (intros; by apply RateLimiterFacts.consume_other).
  split; [|split].
  - destruct (truthy_field_cases (body_handle request)) as [Hm | [h Hp]].
    { by rewrite (login_missing _ _ _ Hm). }
    specialize (Hother loginLimiter_options (loginLimiter s)).
    destruct (RateLimiterMemory.consume loginLimiter_options _ _ _)
      as [[res|[res|]] l] eqn:Hc; simpl in Hother.
    + rewrite (login_consumed _ _ _ _ _ _ Hp Hc). simpl.
      destruct (storage s !! toKey h) as [user|]; [|done].
      destruct (enabled user); simpl; [|done].
      destruct (password_step user request _) as [[[]|] ?]; try done.
      destruct (session request); [|done].
      simpl. by rewrite lookup_delete_ne.
    + by rewrite (login_rejected _ _ _ _ _ _ Hp Hc).
    + pose proof (RateLimiterFacts.consume_outcome loginLimiter_options
                    (getIpAddress request) (now w) (loginLimiter s)) as Ho.
      by rewrite Hc in Ho.
  - destruct (truthy_field_cases (body_handle request)) as [Hm | [h Hp]].
    { by rewrite (recover_step1_missing _ _ _ Hm). }
    specialize (Hother recoverLimiter_options (recoverLimiter s)).
    destruct (RateLimiterMemory.consume recoverLimiter_options _ _ _)
      as [[res|[res|]] l] eqn:Hc; simpl in Hother.
    + rewrite (recover_step1_consumed _ _ _ _ _ _ Hp Hc). simpl.
      destruct (storage s !! toKey h) as [user|]; [|done].
      by destruct (enabled user).
    + by rewrite (recover_step1_limited _ _ _ _ _ _ Hp Hc).
    + pose proof (RateLimiterFacts.consume_outcome recoverLimiter_options
                    (getIpAddress request) (now w) (recoverLimiter s)) as Ho.
      by rewrite Hc in Ho.
  - destruct (recover_step2_cases request w s)
      as [-> | (h & code & Hp & Hc & [[_ ->] | (user & Hu & [[_ ->] | He])])];
      try done.
    rewrite (recover_step2_found _ _ _ _ _ _ Hp Hc Hu He).
    destruct (Cache.get _ _ _) as [mfaCode c]. simpl.
    destruct (bool_decide (mfaCode = Some code)).
    + destruct (truthy_field (body_newPassword request)).
      * destruct (getPasswordHash _ _); [|done]. simpl. by rewrite lookup_delete_ne.
      * simpl. by rewrite lookup_delete_ne.
    + specialize (Hother recoverLimiter_options (recoverLimiter s)).
      by destruct (RateLimiterMemory.consume _ _ _ _) as [[?|[?|]] ?].
Qed.

End RecoverExtras.

Section RecoveryFlow.

Context `{Imports}.

(** [/recover-step2] for an enabled record when the code sent is the live
    code of the cache. *)
Lemma recover_step2_match request w s h code user :
  present (body_handle request) h →
  present (body_code request) code →
  storage s !! toKey h = Some user →
  enabled user = true →
  live_code (MFA_CACHE s) (handle user) (now w) code →
  recover_step2 request w s =
    match (if truthy_field (body_newPassword request)
           then getPasswordHash (body_newPassword request) (saltDraw w)
           else Some "") with
    | Some p =>
        (sendStatus 204,
         {| storage := <[toKey (handle user) := recovered user request w p]> (storage s);
            loginLimiter := loginLimiter s;
            recoverLimiter := delete (getIpAddress request) (recoverLimiter s);
            MFA_CACHE := delete (handle user) (MFA_CACHE s) |})
    | None => (sendStatus 500, s)
    end.
Proof.
  intros Hp Hc Hu He Hl.
  rewrite (recover_step2_found _ _ _ _ _ _ Hp Hc Hu He).
  pose proof (proj2 (Cache_get_live _ _ _ _) Hl) as Hg.
  destruct Hl as (e & Hk & _ & Ht).
  assert ((Cache.get (handle user) (now w) (MFA_CACHE s)).2 = MFA_CACHE s) as Hc2.
  { unfold Cache.get. rewrite Hk.
    destruct (Z.ltb_spec (now w) (Cache.expiry e)); [done|lia]. }
  destruct (Cache.get _ _ _) as [mfaCode c]. simpl in Hg, Hc2. subst.
  rewrite bool_decide_eq_true_2 by done.
  destruct (match truthy_field _ with true => _ | false => _ end); [done|].
  by destruct s.
Qed.

(** [/recover-step2] for an enabled record when the code sent is not the
    live code of the cache: the store is not written and the answer is not
    204. *)
Lemma recover_step2_mismatch request w s h code user :
  present (body_handle request) h →
  present (body_code request) code →
  storage s !! toKey h = Some user →
  enabled user = true →
  ¬ live_code (MFA_CACHE s) (handle user) (now w) code →
  (recover_step2 request w s).1 ≠ sendStatus 204
  ∧ storage (recover_step2 request w s).2 = storage s.
Proof.
  intros Hp Hc Hu He Hl.
  rewrite (recover_step2_found _ _ _ _ _ _ Hp Hc Hu He).
  rewrite <- Cache_get_live in Hl.
  destruct (Cache.get _ _ _) as [mfaCode c]. simpl in Hl |- *.
  rewrite bool_decide_eq_false_2 by done.
  by destruct (RateLimiterMemory.consume _ _ _ _) as [[?|[?|]] ?].
Qed.


(** X10: [/recover-step2] answers 204 only to a request with handle and
    code, for an enabled record, whose code is the code the cache holds for
    the record's handle and has not expired; in every other case the store
    is not written. *)
Theorem recover_step2_sound request w s :
  (∃ h code user,
      present (body_handle request) h
      ∧ present (body_code request) code
      ∧ storage s !! toKey h = Some user
      ∧ enabled user = true
      ∧ live_code (MFA_CACHE s) (handle user) (now w) code
      ∧ (recover_step2 request w s).1 = sendStatus 204)
  ∨ ((recover_step2 request w s).1 ≠ sendStatus 204
     ∧ storage (recover_step2 request w s).2 = storage s).
Proof.
  destruct (recover_step2_cases request w s)
    as [-> | (h & code & Hp & Hc & [[_ ->] | (user & Hu & [[_ ->] | He])])];
    try by right.
  destruct (Cache.get (handle user) (now w) (MFA_CACHE s)).1 as [v|] eqn:Hg.
  - destruct (decide (v = code)) as [->|Hne].
    + apply Cache_get_live in Hg.
      rewrite (recover_step2_match _ _ _ _ _ _ Hp Hc Hu He Hg).
      destruct (match truthy_field _ with true => _ | false => _ end) as [p|] eqn:Hh.
      * left. by exists h, code, user.
      * by right.
    + right. apply (recover_step2_mismatch _ _ _ _ _ _ Hp Hc Hu He).
      rewrite <- Cache_get_live, Hg. congruence.
  - right. apply (recover_step2_mismatch _ _ _ _ _ _ Hp Hc Hu He).
    by rewrite <- Cache_get_live, Hg.
Qed.

(** X11: a recovery code works once: after a [/recover-step2] that answered
    204 for a handle, no further [/recover-step2] for that handle answers
    204, whatever code it sends, at any time and from any origin, until
    [/recover-step1] issues a new code. *)
Theorem recovery_code_single_use request w s h request2 w2 :
  present (body_handle request) h →
  (recover_step2 request w s).1 = sendStatus 204 →
  present (body_handle request2) h →
  (recover_step2 request2 w2 (recover_step2 request w s).2).1 ≠ sendStatus 204.
Proof.
  intros Hp H204 Hp2.
  destruct (recover_step2_cases request w s)
    as [E | (h' & code & Hp' & Hc & [[_ E] | (user & Hu & [[_ E] | He])])];
    try (rewrite E in H204; discriminate).
  rewrite <- (present_unique _ _ _ Hp Hp') in *. clear Hp'.
  destruct (Cache.get (handle user) (now w) (MFA_CACHE s)).1 as [v|] eqn:Hg.
  2: { destruct (recover_step2_mismatch request w s h code user Hp Hc Hu He); [|done].
       by rewrite <- Cache_get_live, Hg. }
  destruct (decide (v = code)) as [->|Hne].
  2: { destruct (recover_step2_mismatch request w s h code user Hp Hc Hu He); [|done].
       rewrite <- Cache_get_live, Hg. congruence. }
  apply Cache_get_live in Hg. revert H204.
  rewrite (recover_step2_match _ _ _ _ _ _ Hp Hc Hu He Hg).
  destruct (match truthy_field _ with true => _ | false => _ end) as [p|];
    [intros _|discriminate].
  simpl. set (s' := {| storage := _ |}).
  assert (∃ user2, storage s' !! toKey h = Some user2
                   ∧ handle user2 = handle user ∧ enabled user2 = true)
    as (user2 & Hu2 & Hh2 & He2).
  { unfold s'. simpl. destruct (decide (toKey (handle user) = toKey h)) as [Hk|Hk].
    - rewrite <- Hk, lookup_insert_eq. eexists. split; [done|].
      unfold recovered. by destruct (truthy_field _).
    - rewrite lookup_insert_ne by done. by exists user. }
  destruct (recover_step2_cases request2 w2 s')
    as [-> | (h2 & code2 & Hp2' & Hc2 & [[_ ->] | (u & Hu' & [[_ ->] | _])])];
    try done.
  rewrite <- (present_unique _ _ _ Hp2 Hp2') in *.
  apply (recover_step2_mismatch _ _ _ _ _ _ Hp2 Hc2 Hu2 He2).
  intros (e & Hk & _). rewrite Hh2 in Hk. unfold s' in Hk. simpl in Hk.
  by rewrite lookup_delete_eq in Hk.
Qed.

(** X12: every [/recover-step1] request with a handle is charged one point
    to its origin, for an unknown handle too, which is answered 404 'User
    not found' while the charge stays within the budget; the code cache
    changes only when the answer is 204. *)
Theorem recover_step1_always_charged request w s h :
  present (body_handle request) h →
  let ip := getIpAddress request in
  let charge := S (RateLimiterMemory.charged ip (now w) (recoverLimiter s)) in
  (∃ r, recoverLimiter (recover_step1 request w s).2 !! ip = Some r
        ∧ RateLimiterMemory.value r = charge)
  ∧ ((recover_step1 request w s).1 ≠ sendStatus 204 →
     MFA_CACHE (recover_step1 request w s).2 = MFA_CACHE s)
  ∧ (storage s !! toKey h = None → (charge ≤ 5)%nat →
     (recover_step1 request w s).1 = json 404 (JsonError "User not found")).
Proof.
  intros Hp ip charge.
  destruct (RateLimiterFacts.incrby_lookup ip 300 (now w) (recoverLimiter s))
    as (r & Hr & Hv & _).
  destruct (MoreRateLimiterFacts.consume_cases recoverLimiter_options ip (now w)
              (recoverLimiter s)) as [(res & Hc & _) | (res & Hc & Hlt)].
  - rewrite (recover_step1_consumed _ _ _ _ _ _ Hp Hc). simpl.
    destruct (storage s !! toKey h) as [user|]; [destruct (enabled user)|];
      simpl; (split; [by exists r|]); split; done.
  - rewrite (recover_step1_limited _ _ _ _ _ _ Hp Hc). simpl.
    split; [by exists r|]. split; [done|]. intros _ Hle.
    unfold charge in Hle. simpl in Hlt. lia.
Qed.

(** X13: after [/recover-step1] has issued a code for a record, a
    [/recover-step2] request for that handle is answered 204 exactly when
    it carries the code just issued and comes less than five minutes after
    it was issued: an older code of the handle no longer works, and the new
    one stops working at the five minutes. *)
Theorem recovery_code_validity request1 w1 s h res l user request2 w2 c :
  present (body_handle request1) h →
  RateLimiterMemory.consume recoverLimiter_options (getIpAddress request1) (now w1)
    (recoverLimiter s) = (Ok res, l) →
  storage s !! toKey h = Some user →
  enabled user = true →
  present (body_handle request2) h →
  present (body_code request2) c →
  (truthy_field (body_newPassword request2) = true →
   is_Some (getPasswordHash (body_newPassword request2) (saltDraw w2))) →
  (recover_step2 request2 w2 (recover_step1 request1 w1 s).2).1 = sendStatus 204
  ↔ c = String_of_number (randomInt 1000 9999 (intDraw w1))
    ∧ now w2 < now w1 + 300000.
Proof.
  intros Hp1 Hc1 Hu He Hp2 Hc2 Hhash.
  rewrite (recover_step1_consumed _ _ _ _ _ _ Hp1 Hc1), Hu, He. simpl.
  set (code := String_of_number _).
  set (s1 := with_MFA_CACHE _ _).
  assert (storage s1 !! toKey h = Some user) as Hu1 by done.
  assert (∀ v, live_code (MFA_CACHE s1) (handle user) (now w2) v
               ↔ v = code ∧ now w2 < now w1 + 300000) as Hlive.
  { intros v. unfold live_code, s1, Cache.set, MFA_CACHE_ttl. simpl.
    rewrite lookup_insert_eq. split.
    - intros (e & [= <-] & <- & Ht). simpl in Ht. split; [done|lia].
    - intros [-> Ht]. eexists. split; [done|]. simpl. split; [done|lia]. }
  split.
  - intros H204.
    destruct (decide (c = code ∧ now w2 < now w1 + 300000)) as [|Hn]; [done|].
    rewrite <- Hlive in Hn.
    by destruct (recover_step2_mismatch request2 w2 s1 h c user Hp2 Hc2 Hu1 He Hn).
  - intros Hok. apply Hlive in Hok.
    rewrite (recover_step2_match _ _ _ _ _ _ Hp2 Hc2 Hu1 He Hok).
    destruct (truthy_field (body_newPassword request2)); [|done].
    by destruct Hhash as [p ->].
Qed.

End RecoveryFlow.

Section AfterRecovery.

Context `{Imports}.

(** What a 204 of [/recover-step2] tells. *)
Lemma recover_step2_204_inv request w s :
  (recover_step2 request w s).1 = sendStatus 204 →
  ∃ h code user p,
    present (body_handle request) h
    ∧ present (body_code request) code
    ∧ storage s !! toKey h = Some user
    ∧ enabled user = true
    ∧ live_code (MFA_CACHE s) (handle user) (now w) code
    ∧ (if truthy_field (body_newPassword request)
       then getPasswordHash (body_newPassword request) (saltDraw w) = Some p
       else p = "")
    ∧ storage (recover_step2 request w s).2
      = <[toKey (handle user) := recovered user request w p]> (storage s)
    ∧ loginLimiter (recover_step2 request w s).2 = loginLimiter s.
Proof.
  intros H204.
  destruct (recover_step2_cases request w s)
    as [E | (h & code & Hp & Hc & [[_ E] | (user & Hu & [[_ E] | He])])];
    try (rewrite E in H204; discriminate).
  assert (live_code (MFA_CACHE s) (handle user) (now w) code) as Hl.
  { destruct (Cache.get (handle user) (now w) (MFA_CACHE s)).1 as [v|] eqn:Hg.
    - destruct (decide (v = code)) as [->|Hne]; [by apply Cache_get_live|].
      destruct (recover_step2_mismatch request w s h code user Hp Hc Hu He);
        [|done]. rewrite <- Cache_get_live, Hg. congruence.
    - destruct (recover_step2_mismatch request w s h code user Hp Hc Hu He);
        [|done]. by rewrite <- Cache_get_live, Hg. }
  revert H204. rewrite (recover_step2_match _ _ _ _ _ _ Hp Hc Hu He Hl).
  destruct (truthy_field (body_newPassword request)) eqn:Hn.
  - destruct (getPasswordHash _ _) as [p|] eqn:Hh; [intros _|discriminate].
    by exists h, code, user, p.
  - intros _. by exists h, code, user, "".
Qed.

(** X14: after [/recover-step2] answered 204 for a handle whose record is
    stored under its own handle, a login for that handle that the limiter
    lets through and that has a session object succeeds with the password
    the recovery set; when the recovery set none, it succeeds with any
    password. *)
Theorem login_after_recovery request w s h user request' w' res l sess :
  present (body_handle request) h →
  storage s !! toKey h = Some user →
  toKey (handle user) = toKey h →
  (recover_step2 request w s).1 = sendStatus 204 →
  present (body_handle request') h →
  (truthy_field (body_newPassword request) = true →
   body_password request' = body_newPassword request) →
  RateLimiterMemory.consume loginLimiter_options (getIpAddress request') (now w')
    (loginLimiter (recover_step2 request w s).2) = (Ok res, l) →
  session request' = Some sess →
  (login request' w' (recover_step2 request w s).2).1
  = (json 200 (JsonLogin (handle user) (uid user)),
     Some {| session_handle := Some (handle user) |}).
Proof.
  intros Hp Hu Hk H204 Hp' Hpw Hc Hs.
  destruct (recover_step2_204_inv _ _ _ H204)
    as (h0 & code & user0 & p & Hp0 & _ & Hu0 & He & _ & Hh & Hst & _).
  rewrite <- (present_unique _ _ _ Hp Hp0) in Hu0.
  assert (user0 = user) as -> by congruence.
  rewrite (login_consumed _ _ _ _ _ _ Hp' Hc), Hst, <- Hk, lookup_insert_eq.
  assert (enabled (recovered user request w p) = true) as ->
    by (unfold recovered; by destruct (truthy_field _)).
  simpl. rewrite password_step_accepted, Hs.
  - unfold recovered. by destruct (truthy_field _).
  - unfold password_accepted, recovered.
    destruct (truthy_field (body_newPassword request)); simpl.
    + right. by rewrite Hpw.
    + by left.
Qed.

Lemma filter_filter_length (keep : string * User → bool) (m : list (string * User)) :
  length (List.filter enabled (snd <$> List.filter keep m))
  = length (List.filter (λ x, keep x && enabled x.2) m).
Proof.
  induction m as [|[k u] m IH]; [done|]. simpl.
  destruct (keep (k, u)); simpl; [|exact IH].
  destruct (enabled u); simpl; [f_equal|]; exact IH.
Qed.

(** X15: with discreet login off, every enabled record stored under the
    user prefix is in the answer of [/list], and the answer has exactly one
    entry for each such stored record. *)
Theorem list_complete s key user :
  DISCREET_LOGIN = false →
  storage s !! key = Some user →
  String.prefix KEY_PREFIX key = true →
  enabled user = true →
  ∃ l, (list_route s).1 = json 200 (JsonList l)
       ∧ toViewModel user ∈ l
       ∧ length l
         = length (List.filter (λ x, String.prefix KEY_PREFIX x.1 && enabled x.2)
                     (map_to_list (storage s))).
Proof.
  intros Hd Hk Hp He. eexists.
  unfold list_route, list_try, bind, ret, storage_values. rewrite Hd. simpl.
  split; [reflexivity|]. split.
  - rewrite merge_sort_Permutation. apply list_elem_of_fmap. exists user.
    split; [done|]. apply list_elem_of_In, filter_In. split; [|done].
    apply list_elem_of_In, list_elem_of_fmap. exists (key, user).
    split; [done|]. apply list_elem_of_In, filter_In. split; [|done].
    by apply list_elem_of_In, elem_of_map_to_list.
  - rewrite merge_sort_Permutation, length_fmap. apply filter_filter_length.
Qed.

End AfterRecovery.

(** ** Properties of the client script *)

Module UserScriptFacts.
Import UserScript.

(** X16: the handle the script reports for the current user is never the
    empty string: it is the current user's handle when there is a current
    user with a non-empty handle, and 'default-user' when there is no
    current user or the user's handle is missing or empty. *)
Theorem getCurrentUserHandle_not_empty currentUser :
  truthy (getCurrentUserHandle currentUser) = true
  ∧ (∀ u h, currentUser = Some u → cu_handle u = Some h → truthy h = true →
            getCurrentUserHandle currentUser = h)
  ∧ ((currentUser = None
      ∨ ∃ u, currentUser = Some u ∧ truthy_field (cu_handle u) = false) →
     getCurrentUserHandle currentUser = "default-user").
Proof.
  unfold getCurrentUserHandle. split_and!.
  - destruct currentUser as [u|]; [|done].
    destruct (cu_handle u) as [h|]; [|done].
    by destruct (truthy h) eqn:Ht.
  - intros u h -> -> Ht. by rewrite Ht.
  - intros [-> | (u & -> & Hf)]; [done|].
    destruct (cu_handle u) as [h|]; [|done].
    simpl in Hf. by rewrite Hf.
Qed.

Lemma createUser_body_snoc formData entry :
  createUser_body (formData ++ [entry]) = add_field (createUser_body formData) entry.
Proof. unfold createUser_body. by rewrite fold_left_app. Qed.

(** X18: the body [createUser] sends holds, under a key, the value of the
    last form field that is sent under that key: a field other than
    'confirm' whose name, without a leading underscore, is the key and is
    not '__proto__'.  So the 'confirm' field itself is never sent (a value
    under 'confirm' can only come from a field named '_confirm'), and
    nothing is ever sent under '__proto__'. *)
Theorem createUser_body_lookup formData k :
  createUser_body formData !! k = snd <$> last (List.filter (sent_as k) formData)
  ∧ (∀ v, k = "confirm" → createUser_body formData !! k = Some v →
          ("_confirm", v) ∈ formData)
  ∧ createUser_body formData !! "__proto__" = None.
Proof.
  assert (∀ k' fd, createUser_body fd !! k'
                   = snd <$> last (List.filter (sent_as k') fd)) as Hlookup.
  { intros k'. induction fd as [|[key v] fd IH] using rev_ind; [done|].
    rewrite createUser_body_snoc, List.filter_app. unfold add_field, sent_as.
    simpl. destruct (String.eqb_spec key "confirm") as [->|Hc]; simpl.
    { by rewrite app_nil_r. }
    destruct (String.eqb_spec (body_key key) "__proto__") as [Hp|Hp]; simpl.
    { by rewrite app_nil_r. }
    destruct (String.eqb_spec (body_key key) k') as [->|Hk]; simpl.
    - by rewrite lookup_insert_eq, last_snoc.
    - by rewrite lookup_insert_ne, app_nil_r. }
  split; [apply Hlookup|]. split.
  - intros v -> Hv. rewrite Hlookup in Hv.
    destruct (last _) as [[key v']|] eqn:Hl; [|done]. injection Hv as ->.
    apply last_Some_elem_of, list_elem_of_In, filter_In in Hl as [Hin Hs].
    apply list_elem_of_In in Hin. unfold sent_as in Hs. simpl in Hs.
    apply andb_prop in Hs as [Hn Hb]. apply andb_prop in Hn as [Hn _].
    apply String.eqb_eq in Hb. apply negb_true_iff, String.eqb_neq in Hn.
    unfold body_key in Hb.
    destruct key as [|a rest]; [done|].
    destruct (Ascii.eqb_spec a "_"%char) as [->|Ha].
    + by subst rest.
    + destruct a as [[] [] [] [] [] [] [] []]; congruence.
  - rewrite Hlookup.
    replace (List.filter (sent_as "__proto__") formData) with (@nil (string * string));
      [done|].
    induction formData as [|[key v] fd IH]; [done|]. simpl.
    unfold sent_as at 1. simpl.
    destruct (String.eqb (body_key key) "__proto__"); simpl;
      [rewrite andb_false_r|rewrite andb_false_r]; exact IH.
Qed.

(** X17: [createUser] sends a request exactly when the form has a
    non-empty 'handle' and its 'password' and 'confirm' fields agree (both
    missing counts as agreeing); otherwise it shows an error naming what is
    wrong and sends nothing. *)
Theorem createUser_validation formData :
  (truthy_field (formData_get "handle" formData) = true
   ∧ formData_get "password" formData = formData_get "confirm" formData
   ∧ createUser formData = PostCreate (createUser_body formData))
  ∨ (∃ message, createUser formData = ToastError message "Failed to create user"
       ∧ (truthy_field (formData_get "handle" formData) = false
          ∨ formData_get "password" formData ≠ formData_get "confirm" formData)
       ∧ (message = "Handle is required"
          ∨ message = "Passwords do not match"
          ∨ message = "Handle is required, Passwords do not match")).
Proof.
  unfold createUser, createUser_errors.
  destruct (truthy_field (formData_get "handle" formData)) eqn:Hh;
    destruct (decide (formData_get "password" formData
                      = formData_get "confirm" formData)) as [He|He]; simpl.
  - left. by rewrite bool_decide_eq_true_2.
  - right. rewrite bool_decide_eq_false_2 by done. simpl.
    eexists. split; [done|]. split; [by right|]. by right; left.
  - right. rewrite bool_decide_eq_true_2 by done. simpl.
    eexists. split; [done|]. split; [by left|]. by left.
  - right. rewrite bool_decide_eq_false_2 by done. simpl.
    eexists. split; [done|]. split; [by left|]. by right; right.
Qed.

(** X19: [deleteUser] sends a delete request only for a handle that is not
    the current user's own, after the popup was confirmed and the handle
    typed into it is the handle to delete; the request then carries that
    handle and the purge choice. *)
Theorem deleteUser_guard currentUser handle result purge confirmHandle h p :
  deleteUser currentUser handle result purge confirmHandle = PostDelete h p →
  h = handle ∧ p = purge
  ∧ result = AFFIRMATIVE
  ∧ confirmHandle = handle
  ∧ ∃ u, currentUser = Some u ∧ cu_handle u ≠ Some handle.
Proof.
  unfold deleteUser. destruct currentUser as [u|]; [|done].
  case_bool_decide as Hself; [done|].
  destruct result; try done.
  destruct (String.eqb_spec handle confirmHandle) as [<-|]; simpl; [|done].
  intros [= <- <-]. split_and!; try done. by exists u.
Qed.

Lemma split_no_sep sep s : occurs sep s = false → split sep s = [s].
Proof.
  induction s as [|c s IH]; [done|]. simpl.
  destruct (Ascii.eqb c sep); simpl; [done|]. intros Ho. by rewrite IH.
Qed.

Lemma split_at_sep sep s1 s2 :
  occurs sep s1 = false →
  split sep (s1 +:+ String sep s2) = s1 :: split sep s2.
Proof.
  induction s1 as [|c s1 IH]; simpl.
  - intros _. by rewrite Ascii.eqb_refl.
  - destruct (Ascii.eqb c sep); simpl; [done|]. intros Ho. by rewrite IH.
Qed.

Lemma remove_all_absent c s : occurs c s = false → remove_all c s = s.
Proof.
  induction s as [|a s IH]; [done|]. simpl.
  destruct (Ascii.eqb a c); simpl; [done|]. intros Ho. by rewrite IH.
Qed.

Lemma remove_all_app c s1 s2 :
  remove_all c (s1 +:+ s2) = remove_all c s1 +:+ remove_all c s2.
Proof.
  induction s1 as [|a s1 IH]; [done|]. simpl.
  destruct (Ascii.eqb a c); simpl; by rewrite IH.
Qed.

Lemma remove_all_gone c s : occurs c (remove_all c s) = false.
Proof.
  induction s as [|a s IH]; [done|]. simpl.
  destruct (Ascii.eqb a c) eqn:E; simpl; [done|]. by rewrite E.
Qed.

Lemma append_nil_r s : s +:+ "" = s.
Proof.
  induction s as [|a s IH]; [done|].
  change (String a (s +:+ "") = String a s). by rewrite IH.
Qed.

Lemma occurs_app c s1 s2 : occurs c (s1 +:+ s2) = occurs c s1 || occurs c s2.
Proof.
  induction s1 as [|a s1 IH]; [done|]. simpl. by rewrite IH, orb_assoc.
Qed.

(** X20: for a Content-Disposition header made of a disposition, a ';', a
    parameter name, '=' and the file name in double quotes, where the
    disposition and the parameter name hold neither ';' nor '=' and the file
    name holds neither ';', '=' nor a double quote, the name [backupUserData]
    gives the download is that file name.  Whatever the header, the name
    never holds a double quote, and a header without ';' gives no name. *)
Theorem backup_filename_roundtrip disposition param file header :
  occurs ";" disposition = false →
  occurs ";" param = false →
  occurs "=" param = false →
  occurs ";" file = false →
  occurs "=" file = false →
  occurs quote file = false →
  backup_filename
    (Some (disposition +:+ String ";" (param +:+ String "="
             (String quote (file +:+ String quote EmptyString)))))
  = Some file
  ∧ (∀ name, backup_filename header = Some name → occurs quote name = false)
  ∧ (∀ h, header = Some h → occurs ";" h = false → backup_filename header = None).
Proof.
  intros Hd Hp1 Hp2 Hf1 Hf2 Hf3. split; [|split].
  - unfold backup_filename.
    rewrite (split_at_sep ";" disposition _ Hd).
    rewrite split_no_sep.
    2: { rewrite occurs_app, Hp1. simpl. by rewrite occurs_app, Hf1. }
    simpl. rewrite (split_at_sep "=" param _ Hp2).
    rewrite split_no_sep.
    2: { simpl. rewrite occurs_app, Hf2. done. }
    simpl. rewrite remove_all_app, (remove_all_absent _ _ Hf3). simpl.
    f_equal. apply append_nil_r.
  - intros name. unfold backup_filename.
    destruct header as [h|]; [|done].
    destruct (split ";" h !! 1%nat) as [part|]; [|done].
    destruct (split "=" part !! 1%nat) as [v|]; [|done].
    intros [= <-]. apply remove_all_gone.
  - intros h -> Ho. unfold backup_filename. by rewrite (split_no_sep _ _ Ho).
Qed.

End UserScriptFacts.

(** ** The further statements at concrete inputs *)

Section MoreWitnesses.

#[local] Existing Instance demo_imports.

Example createUser_demo :
  UserScript.createUser demo_form
  = UserScript.PostCreate
      (<["name" := "Dana"]> (<["handle" := "dana"]> (<["password" := "pw"]> ∅))).
Proof. vm_compute. reflexivity. Qed.

Example backup_filename_demo :
  UserScript.backup_filename (Some demo_header) = Some "dana.zip".
Proof. vm_compute. reflexivity. Qed.

(** A file name with '=' in it is cut at the '='. *)
Example backup_filename_cut :
  UserScript.backup_filename (Some "attachment; filename=a=b.zip") = Some "a".
Proof. vm_compute. reflexivity. Qed.

Lemma required_fields_missing_witness :
  recover_step2 (demo_recover (Some "alice") (Some "") None) (at_time 5)
    demo_recovering
  = (json 400 (JsonError "Missing required fields"), demo_recovering).
Proof.
  refine (proj1 (required_fields_missing
                   (demo_recover (Some "alice") (Some "") None) (at_time 5)
                   demo_recovering _)).
  right. reflexivity.
Defined.

Lemma disabled_record_refused_witness :
  login (demo_request (Some "carol") (Some "guess")) (at_time 0) demo_state
  = ((json 403 (JsonError "User is disabled"), Some {| session_handle := None |}),
     with_loginLimiter (first_point 60000) demo_state).
Proof.
  refine (proj1 (disabled_record_refused
                   (demo_request (Some "carol") (Some "guess")) (at_time 0)
                   demo_state "carol" carol _ _ _)
            (first_res 60000) (first_point 60000) _).
  - split; reflexivity.
  - reflexivity.
  - reflexivity.
  - reflexivity.
Defined.

Lemma login_locked_out_witness :
  (login (demo_request (Some "alice") (Some "secret")) (at_time 1000) demo_locked).1
  = (json 429 (JsonError "Too many attempts. Try again later or recover your password."),
     Some {| session_handle := None |}).
Proof.
  refine (proj1 (login_locked_out
                   (demo_request (Some "alice") (Some "secret")) (at_time 1000)
                   demo_locked "alice"
                   {| RateLimiterMemory.value := 5;
                      RateLimiterMemory.expiresAt := Some 60000 |} _ _ _ _)).
  - split; reflexivity.
  - reflexivity.
  - reflexivity.
  - simpl. lia.
Defined.

Lemma login_after_window_witness :
  status (login (demo_request (Some "alice") (Some "guess")) (at_time 60000)
            demo_locked).1.1 ≠ 429.
Proof.
  refine (proj1 (login_after_window
                   (demo_request (Some "alice") (Some "guess")) (at_time 60000)
                   demo_locked "alice" _ _)).
  - split; reflexivity.
  - reflexivity.
Defined.

Lemma limiters_keyed_by_origin_witness :
  loginLimiter (login (demo_request (Some "alice") (Some "guess")) (at_time 0)
                  demo_state).2 !! "10.0.0.2"
  = loginLimiter demo_state !! "10.0.0.2".
Proof.
  refine (proj1 (limiters_keyed_by_origin
                   (demo_request (Some "alice") (Some "guess")) (at_time 0)
                   demo_state "10.0.0.2" _)).
  discriminate.
Defined.


Lemma recovery_code_single_use_witness :
  (recover_step2 (demo_recover (Some "alice") (Some "9507") None) (at_time 9)
     (recover_step2 (demo_recover (Some "alice") (Some "9507") (Some "fresh"))
        (at_time 5) demo_recovering).2).1
  ≠ sendStatus 204.
Proof.
  refine (recovery_code_single_use
            (demo_recover (Some "alice") (Some "9507") (Some "fresh")) (at_time 5)
            demo_recovering "alice"
            (demo_recover (Some "alice") (Some "9507") None) (at_time 9) _ _ _).
  - split; reflexivity.
  - reflexivity.
  - split; reflexivity.
Defined.

Lemma recover_step1_always_charged_witness :
  (recover_step1 (demo_recover (Some "zed") None None) (at_time 0) demo_state).1
  = json 404 (JsonError "User not found").
Proof.
  refine (proj2 (proj2 (recover_step1_always_charged
                          (demo_recover (Some "zed") None None) (at_time 0)
                          demo_state "zed" _)) _ _).
  - split; reflexivity.
  - reflexivity.
  - vm_compute. lia.
Defined.

Lemma recovery_code_validity_witness :
  (recover_step2 (demo_recover (Some "alice") (Some "9507") (Some "fresh"))
     (at_time 299999)
     (recover_step1 (demo_recover (Some "alice") None None) (at_time 0)
        demo_state).2).1
  = sendStatus 204.
Proof.
  refine (proj2 (recovery_code_validity
                   (demo_recover (Some "alice") None None) (at_time 0) demo_state
                   "alice" (first_res 300000) (first_point 300000) alice
                   (demo_recover (Some "alice") (Some "9507") (Some "fresh"))
                   (at_time 299999) "9507" _ _ _ _ _ _ _) _).
  - split; reflexivity.
  - reflexivity.
  - reflexivity.
  - reflexivity.
  - split; reflexivity.
  - split; reflexivity.
  - intros _. eexists. reflexivity.
  - split; [reflexivity|]. simpl. lia.
Defined.

Lemma login_after_recovery_witness :
  (login (demo_request (Some "alice") (Some "fresh")) (at_time 10)
     (recover_step2 (demo_recover (Some "alice") (Some "9507") (Some "fresh"))
        (at_time 5) demo_recovering).2).1
  = (json 200 (JsonLogin "alice" "u-1"), Some {| session_handle := Some "alice" |}).
Proof.
  refine (login_after_recovery
            (demo_recover (Some "alice") (Some "9507") (Some "fresh")) (at_time 5)
            demo_recovering "alice" alice
            (demo_request (Some "alice") (Some "fresh")) (at_time 10)
            {| msBeforeNext := 60000; remainingPoints := 4; consumedPoints := 1;
               isFirstInDuration := true |}
            {[ "10.0.0.1" := {| RateLimiterMemory.value := 1;
                                RateLimiterMemory.expiresAt := Some 60010 |} ]}
            {| session_handle := None |} _ _ _ _ _ _ _ _).
  - split; reflexivity.
  - reflexivity.
  - reflexivity.
  - reflexivity.
  - split; reflexivity.
  - intros _. reflexivity.
  - reflexivity.
  - reflexivity.
Defined.

Lemma list_complete_witness :
  ∃ l, (list_route demo_state).1 = json 200 (JsonList l)
       ∧ toViewModel alice ∈ l
       ∧ length l = 2%nat.
Proof.
  destruct (list_complete demo_state "user:alice" alice) as (l & Hl & Hin & Hlen).
  - reflexivity.
  - reflexivity.
  - reflexivity.
  - reflexivity.
  - exists l. split; [exact Hl|]. split; [exact Hin|]. exact Hlen.
Defined.

Lemma createUser_body_lookup_witness :
  UserScript.createUser_body demo_form !! "name" = Some "Dana"
  ∧ UserScript.createUser_body demo_form !! "confirm" = None
  ∧ UserScript.createUser_body demo_form_proto !! "__proto__" = None
  ∧ ("_confirm", "kept") ∈ demo_form_proto.
Proof.
  split_and!.
  - exact (proj1 (UserScriptFacts.createUser_body_lookup demo_form "name")).
  - exact (proj1 (UserScriptFacts.createUser_body_lookup demo_form "confirm")).
  - exact (proj2 (proj2 (UserScriptFacts.createUser_body_lookup demo_form_proto "name"))).
  - refine (proj1 (proj2 (UserScriptFacts.createUser_body_lookup
                            demo_form_proto "confirm")) "kept" _ _);
      reflexivity.
Defined.

Lemma getCurrentUserHandle_not_empty_witness :
  UserScript.getCurrentUserHandle (Some demo_admin) = "admin"
  ∧ UserScript.getCurrentUserHandle None = "default-user".
Proof.
  split.
  - refine (proj1 (proj2 (UserScriptFacts.getCurrentUserHandle_not_empty
                            (Some demo_admin))) demo_admin "admin" _ _ _);
      reflexivity.
  - refine (proj2 (proj2 (UserScriptFacts.getCurrentUserHandle_not_empty None)) _).
    left. reflexivity.
Defined.

Lemma deleteUser_guard_witness :
  UserScript.AFFIRMATIVE = UserScript.AFFIRMATIVE
  ∧ "bob" = "bob"
  ∧ ∃ u, Some demo_admin = Some u ∧ UserScript.cu_handle u ≠ Some "bob".
Proof.
  destruct (UserScriptFacts.deleteUser_guard (Some demo_admin) "bob"
              UserScript.AFFIRMATIVE true "bob" "bob" true eq_refl)
    as (_ & _ & Hr & Hc & Hu).
  split; [exact Hr|]. split; [exact Hc|exact Hu].
Defined.

Lemma backup_filename_roundtrip_witness :
  UserScript.backup_filename (Some demo_header) = Some "dana.zip".
Proof.
  refine (proj1 (UserScriptFacts.backup_filename_roundtrip
                   "attachment" " filename" "dana.zip" None _ _ _ _ _ _));
    reflexivity.
Defined.

End MoreWitnesses.

(** ** Six rejected logins in a row *)

Section SixthAttempt.

Context `{Imports}.

(** One login request whose password is not accepted: it never deletes the
    limiter record of its origin, which is charged a point, and it is
    answered 429 once the charge goes beyond five. *)
Lemma login_rejected_step request w s :
  password_rejected s request →
  (login request w s).2
  = with_loginLimiter
      (RateLimiterMemory.incrby (getIpAddress request) 1 60 (now w)
         (loginLimiter s)).2 s
  ∧ ((5 < S (RateLimiterMemory.charged (getIpAddress request) (now w)
               (loginLimiter s)))%nat →
     (login request w s).1.1 = TooManyRequests_login).
Proof.
  intros (h & Hp & Hrej).
  destruct (MoreRateLimiterFacts.consume_cases loginLimiter_options
              (getIpAddress request) (now w) (loginLimiter s))
    as [(res & Hc & Hle) | (res & Hc & _)].
  - simpl in Hle. rewrite (login_consumed _ _ _ _ _ _ Hp Hc). simpl.
    split; [|lia].
    destruct (storage s !! toKey h) as [user|] eqn:Hu; [|done].
    destruct (enabled user) eqn:He; simpl; [|done].
    destruct (password_step user request _) as [[[]|] ?] eqn:Hps; try done.
    apply password_step_inv in Hps as [_ Ha]. by destruct (Hrej user).
  - by rewrite (login_rejected _ _ _ _ _ _ Hp Hc).
Qed.

(** Rejected logins of one origin while its window is in force: there are
    as many answers as requests, and the answer of index [i] is 429 as soon
    as the points the window had plus [i + 1] go beyond five. *)
Lemma login_all_rejected origin reqs :
  ∀ s r,
    loginLimiter s !! origin = Some r →
    Forall (λ rw, getIpAddress rw.1 = origin
                  ∧ password_rejected s rw.1
                  ∧ RateLimiterMemory.in_force (now rw.2) r = true) reqs →
    length (login_all reqs s).1 = length reqs
    ∧ ∀ i response,
        (login_all reqs s).1 !! i = Some response →
        (5 < RateLimiterMemory.value r + S i)%nat →
        response = TooManyRequests_login.
Proof.
  induction reqs as [|[request w] rest IH]; intros s r Hr Hall; [done|].
  apply Forall_cons in Hall as [(Hip & Hw & Hf) Hrest]. simpl in Hip, Hw, Hf.
  destruct (login_rejected_step request w s Hw) as [Hst Hresp].
  rewrite Hip, (RateLimiterFacts.charged_in_force _ _ _ _ Hr Hf) in Hresp.
  rewrite Hip, (RateLimiterFacts.incrby_in_force _ _ _ _ _ _ Hr Hf) in Hst.
  simpl. destruct (login request w s) as [[response0 sess] s'].
  simpl in Hst, Hresp. subst s'.
  set (r' := {| RateLimiterMemory.value := (RateLimiterMemory.value r + 1)%nat;
                RateLimiterMemory.expiresAt := RateLimiterMemory.expiresAt r |}).
  set (s' := with_loginLimiter _ s).
  destruct (IH s' r') as [Hlen Hrun].
  { unfold s'. simpl. apply lookup_insert_eq. }
  { eapply Forall_impl; [exact Hrest|]. intros [rq w'] (? & ? & ?). done. }
  destruct (login_all rest s') as [responses s'']. simpl in Hlen, Hrun |- *.
  split; [by rewrite Hlen|].
  intros [|i] response; simpl.
  - intros [= <-] Hv. apply Hresp. lia.
  - intros Hi Hv. apply (Hrun i response Hi). unfold r'. simpl. lia.
Qed.

(** C3: six login requests from one origin, each with a handle and a
    password that [/login] does not accept for it, each less than 60
    seconds after the first, handled one after the other while the limiter
    window of the origin does not end in between (no window of the origin
    is in force at the first, or the one in force is still in force at each
    of them): the sixth is answered 429.  When moreover no window is in
    force at the first request and each request is for an enabled record
    with a password whose hash is computed and differs from the stored one,
    the first five are answered 403 'Incorrect credentials'. *)
Theorem login_sixth_attempt_rate_limited origin request1 w1 rest s :
  length rest = 5%nat →
  Forall (λ rw, getIpAddress rw.1 = origin
                ∧ password_rejected s rw.1
                ∧ now rw.2 < now w1 + 60000) ((request1, w1) :: rest) →
  window_holds origin (now w1) ((request1, w1) :: rest) s →
  (login_all ((request1, w1) :: rest) s).1 !! 5%nat
  = Some (json 429 (JsonError "Too many attempts. Try again later or recover your password."))
  ∧ (window_fresh origin (now w1) s →
     Forall (λ rw, wrong_password_attempt s rw.1) ((request1, w1) :: rest) →
     (login_all ((request1, w1) :: rest) s).1
     = (replicate 5 (json 403 (JsonError "Incorrect credentials"))
        ++ [json 429 (JsonError "Too many attempts. Try again later or recover your password.")])%list).
Proof.
  intros Hlen Hall Hwin. split.
  - assert (∀ l, length l = 6%nat →
              (∀ i response, l !! i = Some response → (5 ≤ i)%nat →
                             response = TooManyRequests_login) →
              l !! 5%nat = Some TooManyRequests_login) as Hsixth.
    { intros l Hl Hi. destruct (l !! 5%nat) as [response|] eqn:E.
      - by rewrite (Hi 5%nat response E).
      - apply lookup_ge_None in E. lia. }
    unfold window_holds in Hwin.
    assert (window_fresh origin (now w1) s
            ∨ ∃ r, loginLimiter s !! origin = Some r
                   ∧ Forall (λ rw, RateLimiterMemory.in_force (now rw.2) r = true)
                       ((request1, w1) :: rest)) as [Hf | (r & Hr & Hlive)].
    { unfold window_fresh. destruct (loginLimiter s !! origin) as [r|]; [|by left].
      destruct Hwin as [?|?]; [by left|right; by exists r]. }
    + apply Forall_cons in Hall as [(Hip & Hw & _) Hrest]. simpl in Hip, Hw.
      unfold window_fresh in Hf.
      destruct (login_rejected_step request1 w1 s Hw) as [Hst _].
      rewrite Hip, (RateLimiterFacts.incrby_fresh _ _ _ _ _ Hf) in Hst.
      simpl. destruct (login request1 w1 s) as [[response0 sess] s1].
      simpl in Hst. subst s1.
      set (r1 := {| RateLimiterMemory.value := 1%nat;
                    RateLimiterMemory.expiresAt := _ |}).
      set (s1 := with_loginLimiter _ s).
      destruct (login_all_rejected origin rest s1 r1) as [Hl Hrun].
      { unfold s1. simpl. apply lookup_insert_eq. }
      { eapply Forall_impl; [exact Hrest|]. intros [rq w'] (? & ? & Ht).
        simpl in *. split_and!; [done..|].
        unfold RateLimiterMemory.in_force, r1. simpl. apply Z.ltb_lt. lia. }
      destruct (login_all rest s1) as [responses s2]. simpl in Hl, Hrun |- *.
      destruct (responses !! 4%nat) as [response|] eqn:E.
      * rewrite (Hrun 4%nat response E); [done|]. unfold r1. simpl. lia.
      * apply lookup_ge_None in E. lia.
    + destruct (login_all_rejected origin ((request1, w1) :: rest) s r Hr)
        as [Hl Hrun].
      { apply Forall_and. split; [|apply Forall_and; split; [|done]].
        - eapply Forall_impl; [exact Hall|]. by intros ? (? & ? & ?).
        - eapply Forall_impl; [exact Hall|]. by intros ? (? & ? & ?). }
      apply Hsixth; [rewrite Hl; simpl; by rewrite Hlen|].
      intros i response Hi Hge. apply (Hrun i response Hi). lia.
  - intros Hf Hwrong.
    apply (login_six_wrong_passwords origin request1 w1 rest s Hlen); [|done..].
    apply Forall_and. split; [|apply Forall_and; split].
    + eapply Forall_impl; [exact Hall|]. by intros ? (? & ? & ?).
    + done.
    + eapply Forall_impl; [exact Hall|]. by intros ? (? & ? & ?).
Qed.

End SixthAttempt.

Section RevisedWitnesses.

#[local] Existing Instance demo_imports.

(** The request is for [h] and its password is not accepted. *)
Ltac rejected h :=
  exists h; split; [split; reflexivity|];
  let user := fresh "user" in
  let Hu := fresh "Hu" in
  let He := fresh "He" in
  let Ha := fresh "Ha" in
  intros user Hu He Ha; vm_compute in Hu;
  first [ discriminate Hu
        | injection Hu as <-;
          first [ discriminate He
                | destruct Ha as [Ha|Ha]; vm_compute in Ha; discriminate Ha ] ].

Lemma login_sixth_attempt_rate_limited_witness :
  (login_all rejected_attempts demo_state).1 !! 5%nat
  = Some (json 429 (JsonError "Too many attempts. Try again later or recover your password.")).
Proof.
  refine (proj1 (login_sixth_attempt_rate_limited "10.0.0.1"
                   (demo_request (Some "alice") (Some "guess")) (at_time 0)
                   (tail rejected_attempts) demo_state _ _ _)).
  - reflexivity.
  - unfold rejected_attempts. simpl tail.
    repeat (apply Forall_cons; split;
            [split; [reflexivity|]; split; [|reflexivity] |]);
      [rejected "alice" | rejected "zed" | rejected "carol" | rejected "alice"
      | rejected "alice" | rejected "alice" | constructor].
  - exact I.
Defined.


(** The answers to the six rejected requests of the example. *)
Example rejected_attempts_run :
  status <$> (login_all rejected_attempts demo_state).1
  = [403; 403; 403; 500; 403; 429].
Proof. vm_compute. reflexivity. Qed.

End RevisedWitnesses.
